(** * ChessApp: the coordination core of the chess clock

    A shallow embedding of the message bus ([core/events.js]), the reactive
    store ([core/state.js]), the turn rules ([modules/game/rules.js]), the
    clock engine ([modules/game/engine.js]) and the match statistics listener
    ([modules/gamification/stats.js]), followed by the properties of the
    coordination contract.

    Conventions of the embedding.
    - JavaScript numbers are exact here: no rounding, no [NaN], no
      infinity.  Clock times are whatever number a command carries (the
      store validates nothing and [isValidTime] accepts fractions), and so
      are the quantities derived by division (move durations, averages):
      they are [Q], compared with [Qle_bool] and [Qeq_bool].  Move counts,
      player numbers, experience and millisecond timestamps are only ever
      whole in the source: they are [Z].
    - The module-level variables of the five source files are the fields of
      one record [World]; every function of the source is a computation in
      the state-and-exception monad [M] over that record.
    - Function values are compared by identity in the source
      ([cb !== callback]); they are the constructors of [fn].  Calling a
      function value goes through a parameter [call], which is instantiated
      at the end of the definitions by [invoke], indexed by the remaining
      depth of the call stack.
    - [listeners] and [subscribers] are objects used as dictionaries from a
      name to an array; they are [gmap string (list fn)].  Names inherited
      from [Object.prototype] are not modelled.
    - The [trace] field is instrumentation: it records every published
      event, every state as it stands right after a command has mutated it,
      and every invocation of a callback together with the state the callee
      can read at that moment. *)

From stdpp Require Import gmap strings list pretty.
From Stdlib Require Import ZArith QArith Qminmax Lia Lqa.
Open Scope Z_scope.

(** ** Function values *)

(** The functions that the source registers as listeners or timer callbacks,
    the closure allocated by [once], and functions of other modules. *)
Inductive fn :=
  | EngineHandleStart
  | EngineHandlePause
  | EngineResetGame
  | EngineHandlePlayerClick
  | EngineHandleTimeSelected
  | EngineTick
  | StatsStartMatch
  | StatsHandlePlayerSwitch
  | StatsHandleVictory
  | OnceWrapper (eventName : string) (callback : fn) (serial : nat)
  | UserFn (id : nat).

Global Instance fn_eq_dec : EqDecision fn.
Proof. solve_decision. Defined.

(** ** The state record of [core/state.js] *)

Record Profile := { profileId : Z }.

(** One entry of [currentMatchStats.moves].  [timeRemaining] is what
    [get(`player${from}Time`)] returned: [None] is [undefined]. *)
Record MoveRecord := {
  move_player : Z;
  move_time : Q;
  move_timeRemaining : option Q;
  move_timestamp : Z
}.

Record MatchStats := {
  startTime : option Z;
  moves : list MoveRecord;
  avgMoveTime : Q;
  longestThink : Q;
  fastestMove : Q
}.

Record State := {
  player1Time : Q;
  player2Time : Q;
  player1Moves : Z;
  player2Moves : Z;
  activePlayer : Z;
  isPaused : bool;
  defaultTime : Q;
  selectedPlayer1 : option Profile;
  selectedPlayer2 : option Profile;
  ambientMode : string;
  audioEnabled : bool;
  particlesEnabled : bool;
  endgameBoostEnabled : bool;
  player1Palette : string;
  player2Palette : string;
  currentMatchStats : MatchStats;
  unlockedAchievements : list string;
  totalXP : Z;
  level : Z
}.

Definition set_player1Time (v : Q) (s : State) : State :=
  {| player1Time := v; player2Time := player2Time s;
     player1Moves := player1Moves s; player2Moves := player2Moves s;
     activePlayer := activePlayer s; isPaused := isPaused s;
     defaultTime := defaultTime s; selectedPlayer1 := selectedPlayer1 s;
     selectedPlayer2 := selectedPlayer2 s; ambientMode := ambientMode s;
     audioEnabled := audioEnabled s; particlesEnabled := particlesEnabled s;
     endgameBoostEnabled := endgameBoostEnabled s;
     player1Palette := player1Palette s; player2Palette := player2Palette s;
     currentMatchStats := currentMatchStats s;
     unlockedAchievements := unlockedAchievements s; totalXP := totalXP s;
     level := level s |}.

Definition set_player2Time (v : Q) (s : State) : State :=
  {| player1Time := player1Time s; player2Time := v;
     player1Moves := player1Moves s; player2Moves := player2Moves s;
     activePlayer := activePlayer s; isPaused := isPaused s;
     defaultTime := defaultTime s; selectedPlayer1 := selectedPlayer1 s;
     selectedPlayer2 := selectedPlayer2 s; ambientMode := ambientMode s;
     audioEnabled := audioEnabled s; particlesEnabled := particlesEnabled s;
     endgameBoostEnabled := endgameBoostEnabled s;
     player1Palette := player1Palette s; player2Palette := player2Palette s;
     currentMatchStats := currentMatchStats s;
     unlockedAchievements := unlockedAchievements s; totalXP := totalXP s;
     level := level s |}.

Definition set_player1Moves (v : Z) (s : State) : State :=
  {| player1Time := player1Time s; player2Time := player2Time s;
     player1Moves := v; player2Moves := player2Moves s;
     activePlayer := activePlayer s; isPaused := isPaused s;
     defaultTime := defaultTime s; selectedPlayer1 := selectedPlayer1 s;
     selectedPlayer2 := selectedPlayer2 s; ambientMode := ambientMode s;
     audioEnabled := audioEnabled s; particlesEnabled := particlesEnabled s;
     endgameBoostEnabled := endgameBoostEnabled s;
     player1Palette := player1Palette s; player2Palette := player2Palette s;
     currentMatchStats := currentMatchStats s;
     unlockedAchievements := unlockedAchievements s; totalXP := totalXP s;
     level := level s |}.

Definition set_player2Moves (v : Z) (s : State) : State :=
  {| player1Time := player1Time s; player2Time := player2Time s;
     player1Moves := player1Moves s; player2Moves := v;
     activePlayer := activePlayer s; isPaused := isPaused s;
     defaultTime := defaultTime s; selectedPlayer1 := selectedPlayer1 s;
     selectedPlayer2 := selectedPlayer2 s; ambientMode := ambientMode s;
     audioEnabled := audioEnabled s; particlesEnabled := particlesEnabled s;
     endgameBoostEnabled := endgameBoostEnabled s;
     player1Palette := player1Palette s; player2Palette := player2Palette s;
     currentMatchStats := currentMatchStats s;
     unlockedAchievements := unlockedAchievements s; totalXP := totalXP s;
     level := level s |}.

Definition set_activePlayer (v : Z) (s : State) : State :=
  {| player1Time := player1Time s; player2Time := player2Time s;
     player1Moves := player1Moves s; player2Moves := player2Moves s;
     activePlayer := v; isPaused := isPaused s;
     defaultTime := defaultTime s; selectedPlayer1 := selectedPlayer1 s;
     selectedPlayer2 := selectedPlayer2 s; ambientMode := ambientMode s;
     audioEnabled := audioEnabled s; particlesEnabled := particlesEnabled s;
     endgameBoostEnabled := endgameBoostEnabled s;
     player1Palette := player1Palette s; player2Palette := player2Palette s;
     currentMatchStats := currentMatchStats s;
     unlockedAchievements := unlockedAchievements s; totalXP := totalXP s;
     level := level s |}.

Definition set_isPaused (v : bool) (s : State) : State :=
  {| player1Time := player1Time s; player2Time := player2Time s;
     player1Moves := player1Moves s; player2Moves := player2Moves s;
     activePlayer := activePlayer s; isPaused := v;
     defaultTime := defaultTime s; selectedPlayer1 := selectedPlayer1 s;
     selectedPlayer2 := selectedPlayer2 s; ambientMode := ambientMode s;
     audioEnabled := audioEnabled s; particlesEnabled := particlesEnabled s;
     endgameBoostEnabled := endgameBoostEnabled s;
     player1Palette := player1Palette s; player2Palette := player2Palette s;
     currentMatchStats := currentMatchStats s;
     unlockedAchievements := unlockedAchievements s; totalXP := totalXP s;
     level := level s |}.

Definition set_defaultTime (v : Q) (s : State) : State :=
  {| player1Time := player1Time s; player2Time := player2Time s;
     player1Moves := player1Moves s; player2Moves := player2Moves s;
     activePlayer := activePlayer s; isPaused := isPaused s;
     defaultTime := v; selectedPlayer1 := selectedPlayer1 s;
     selectedPlayer2 := selectedPlayer2 s; ambientMode := ambientMode s;
     audioEnabled := audioEnabled s; particlesEnabled := particlesEnabled s;
     endgameBoostEnabled := endgameBoostEnabled s;
     player1Palette := player1Palette s; player2Palette := player2Palette s;
     currentMatchStats := currentMatchStats s;
     unlockedAchievements := unlockedAchievements s; totalXP := totalXP s;
     level := level s |}.

Definition set_selectedPlayer1 (v : option Profile) (s : State) : State :=
  {| player1Time := player1Time s; player2Time := player2Time s;
     player1Moves := player1Moves s; player2Moves := player2Moves s;
     activePlayer := activePlayer s; isPaused := isPaused s;
     defaultTime := defaultTime s; selectedPlayer1 := v;
     selectedPlayer2 := selectedPlayer2 s; ambientMode := ambientMode s;
     audioEnabled := audioEnabled s; particlesEnabled := particlesEnabled s;
     endgameBoostEnabled := endgameBoostEnabled s;
     player1Palette := player1Palette s; player2Palette := player2Palette s;
     currentMatchStats := currentMatchStats s;
     unlockedAchievements := unlockedAchievements s; totalXP := totalXP s;
     level := level s |}.

Definition set_selectedPlayer2 (v : option Profile) (s : State) : State :=
  {| player1Time := player1Time s; player2Time := player2Time s;
     player1Moves := player1Moves s; player2Moves := player2Moves s;
     activePlayer := activePlayer s; isPaused := isPaused s;
     defaultTime := defaultTime s; selectedPlayer1 := selectedPlayer1 s;
     selectedPlayer2 := v; ambientMode := ambientMode s;
     audioEnabled := audioEnabled s; particlesEnabled := particlesEnabled s;
     endgameBoostEnabled := endgameBoostEnabled s;
     player1Palette := player1Palette s; player2Palette := player2Palette s;
     currentMatchStats := currentMatchStats s;
     unlockedAchievements := unlockedAchievements s; totalXP := totalXP s;
     level := level s |}.

Definition set_ambientMode (v : string) (s : State) : State :=
  {| player1Time := player1Time s; player2Time := player2Time s;
     player1Moves := player1Moves s; player2Moves := player2Moves s;
     activePlayer := activePlayer s; isPaused := isPaused s;
     defaultTime := defaultTime s; selectedPlayer1 := selectedPlayer1 s;
     selectedPlayer2 := selectedPlayer2 s; ambientMode := v;
     audioEnabled := audioEnabled s; particlesEnabled := particlesEnabled s;
     endgameBoostEnabled := endgameBoostEnabled s;
     player1Palette := player1Palette s; player2Palette := player2Palette s;
     currentMatchStats := currentMatchStats s;
     unlockedAchievements := unlockedAchievements s; totalXP := totalXP s;
     level := level s |}.

Definition set_audioEnabled (v : bool) (s : State) : State :=
  {| player1Time := player1Time s; player2Time := player2Time s;
     player1Moves := player1Moves s; player2Moves := player2Moves s;
     activePlayer := activePlayer s; isPaused := isPaused s;
     defaultTime := defaultTime s; selectedPlayer1 := selectedPlayer1 s;
     selectedPlayer2 := selectedPlayer2 s; ambientMode := ambientMode s;
     audioEnabled := v; particlesEnabled := particlesEnabled s;
     endgameBoostEnabled := endgameBoostEnabled s;
     player1Palette := player1Palette s; player2Palette := player2Palette s;
     currentMatchStats := currentMatchStats s;
     unlockedAchievements := unlockedAchievements s; totalXP := totalXP s;
     level := level s |}.

Definition set_particlesEnabled (v : bool) (s : State) : State :=
  {| player1Time := player1Time s; player2Time := player2Time s;
     player1Moves := player1Moves s; player2Moves := player2Moves s;
     activePlayer := activePlayer s; isPaused := isPaused s;
     defaultTime := defaultTime s; selectedPlayer1 := selectedPlayer1 s;
     selectedPlayer2 := selectedPlayer2 s; ambientMode := ambientMode s;
     audioEnabled := audioEnabled s; particlesEnabled := v;
     endgameBoostEnabled := endgameBoostEnabled s;
     player1Palette := player1Palette s; player2Palette := player2Palette s;
     currentMatchStats := currentMatchStats s;
     unlockedAchievements := unlockedAchievements s; totalXP := totalXP s;
     level := level s |}.

Definition set_endgameBoostEnabled (v : bool) (s : State) : State :=
  {| player1Time := player1Time s; player2Time := player2Time s;
     player1Moves := player1Moves s; player2Moves := player2Moves s;
     activePlayer := activePlayer s; isPaused := isPaused s;
     defaultTime := defaultTime s; selectedPlayer1 := selectedPlayer1 s;
     selectedPlayer2 := selectedPlayer2 s; ambientMode := ambientMode s;
     audioEnabled := audioEnabled s; particlesEnabled := particlesEnabled s;
     endgameBoostEnabled := v; player1Palette := player1Palette s;
     player2Palette := player2Palette s;
     currentMatchStats := currentMatchStats s;
     unlockedAchievements := unlockedAchievements s; totalXP := totalXP s;
     level := level s |}.

Definition set_player1Palette (v : string) (s : State) : State :=
  {| player1Time := player1Time s; player2Time := player2Time s;
     player1Moves := player1Moves s; player2Moves := player2Moves s;
     activePlayer := activePlayer s; isPaused := isPaused s;
     defaultTime := defaultTime s; selectedPlayer1 := selectedPlayer1 s;
     selectedPlayer2 := selectedPlayer2 s; ambientMode := ambientMode s;
     audioEnabled := audioEnabled s; particlesEnabled := particlesEnabled s;
     endgameBoostEnabled := endgameBoostEnabled s; player1Palette := v;
     player2Palette := player2Palette s;
     currentMatchStats := currentMatchStats s;
     unlockedAchievements := unlockedAchievements s; totalXP := totalXP s;
     level := level s |}.

Definition set_player2Palette (v : string) (s : State) : State :=
  {| player1Time := player1Time s; player2Time := player2Time s;
     player1Moves := player1Moves s; player2Moves := player2Moves s;
     activePlayer := activePlayer s; isPaused := isPaused s;
     defaultTime := defaultTime s; selectedPlayer1 := selectedPlayer1 s;
     selectedPlayer2 := selectedPlayer2 s; ambientMode := ambientMode s;
     audioEnabled := audioEnabled s; particlesEnabled := particlesEnabled s;
     endgameBoostEnabled := endgameBoostEnabled s;
     player1Palette := player1Palette s; player2Palette := v;
     currentMatchStats := currentMatchStats s;
     unlockedAchievements := unlockedAchievements s; totalXP := totalXP s;
     level := level s |}.

Definition set_currentMatchStats (v : MatchStats) (s : State) : State :=
  {| player1Time := player1Time s; player2Time := player2Time s;
     player1Moves := player1Moves s; player2Moves := player2Moves s;
     activePlayer := activePlayer s; isPaused := isPaused s;
     defaultTime := defaultTime s; selectedPlayer1 := selectedPlayer1 s;
     selectedPlayer2 := selectedPlayer2 s; ambientMode := ambientMode s;
     audioEnabled := audioEnabled s; particlesEnabled := particlesEnabled s;
     endgameBoostEnabled := endgameBoostEnabled s;
     player1Palette := player1Palette s; player2Palette := player2Palette s;
     currentMatchStats := v; unlockedAchievements := unlockedAchievements s;
     totalXP := totalXP s; level := level s |}.

Definition set_unlockedAchievements (v : list string) (s : State) : State :=
  {| player1Time := player1Time s; player2Time := player2Time s;
     player1Moves := player1Moves s; player2Moves := player2Moves s;
     activePlayer := activePlayer s; isPaused := isPaused s;
     defaultTime := defaultTime s; selectedPlayer1 := selectedPlayer1 s;
     selectedPlayer2 := selectedPlayer2 s; ambientMode := ambientMode s;
     audioEnabled := audioEnabled s; particlesEnabled := particlesEnabled s;
     endgameBoostEnabled := endgameBoostEnabled s;
     player1Palette := player1Palette s; player2Palette := player2Palette s;
     currentMatchStats := currentMatchStats s; unlockedAchievements := v;
     totalXP := totalXP s; level := level s |}.

Definition set_totalXP (v : Z) (s : State) : State :=
  {| player1Time := player1Time s; player2Time := player2Time s;
     player1Moves := player1Moves s; player2Moves := player2Moves s;
     activePlayer := activePlayer s; isPaused := isPaused s;
     defaultTime := defaultTime s; selectedPlayer1 := selectedPlayer1 s;
     selectedPlayer2 := selectedPlayer2 s; ambientMode := ambientMode s;
     audioEnabled := audioEnabled s; particlesEnabled := particlesEnabled s;
     endgameBoostEnabled := endgameBoostEnabled s;
     player1Palette := player1Palette s; player2Palette := player2Palette s;
     currentMatchStats := currentMatchStats s;
     unlockedAchievements := unlockedAchievements s; totalXP := v;
     level := level s |}.

Definition set_level (v : Z) (s : State) : State :=
  {| player1Time := player1Time s; player2Time := player2Time s;
     player1Moves := player1Moves s; player2Moves := player2Moves s;
     activePlayer := activePlayer s; isPaused := isPaused s;
     defaultTime := defaultTime s; selectedPlayer1 := selectedPlayer1 s;
     selectedPlayer2 := selectedPlayer2 s; ambientMode := ambientMode s;
     audioEnabled := audioEnabled s; particlesEnabled := particlesEnabled s;
     endgameBoostEnabled := endgameBoostEnabled s;
     player1Palette := player1Palette s; player2Palette := player2Palette s;
     currentMatchStats := currentMatchStats s;
     unlockedAchievements := unlockedAchievements s; totalXP := totalXP s;
     level := v |}.

Definition emptyMatchStats : MatchStats :=
  {| startTime := None; moves := []; avgMoveTime := 0%Q;
     longestThink := 0%Q; fastestMove := 0%Q |}.

Definition initialState : State :=
  {| player1Time := 300; player2Time := 300;
     player1Moves := 0; player2Moves := 0;
     activePlayer := 0; isPaused := true; defaultTime := 300;
     selectedPlayer1 := None; selectedPlayer2 := None;
     ambientMode := "classic"; audioEnabled := true;
     particlesEnabled := true; endgameBoostEnabled := true;
     player1Palette := "royal"; player2Palette := "royal";
     currentMatchStats := emptyMatchStats;
     unlockedAchievements := []; totalXP := 0; level := 1 |}.

(** ** Commands, payloads and callback arguments *)

(** The object spread into [currentMatchStats] by [UPDATE_MATCH_STATS]:
    a field that is [None] is absent from the payload. *)
Record StatsPatch := {
  patch_startTime : option (option Z);
  patch_moves : option (list MoveRecord);
  patch_avgMoveTime : option Q;
  patch_longestThink : option Q;
  patch_fastestMove : option Q
}.

(** A value stored under a key of the state, as handed to subscribers:
    [VTime] is a clock time, [VNum] a whole number. *)
Inductive fieldValue :=
  | VUndefined
  | VTime (q : Q)
  | VNum (z : Z)
  | VBool (b : bool)
  | VStr (s : string)
  | VProfile (p : option Profile)
  | VStats (m : MatchStats)
  | VStrings (l : list string)
  | VState (s : State).

(** [UPDATE_SETTING] writes [payload.value] under [payload.key] when the
    state owns that key.  The embedding keeps the state typed: a setting is
    a key of the state with a value of the type of that key, or a key that
    the state does not own. *)
Inductive setting :=
  | Set_player1Time (value : Q)
  | Set_player2Time (value : Q)
  | Set_player1Moves (value : Z)
  | Set_player2Moves (value : Z)
  | Set_activePlayer (value : Z)
  | Set_isPaused (value : bool)
  | Set_defaultTime (value : Q)
  | Set_selectedPlayer1 (value : option Profile)
  | Set_selectedPlayer2 (value : option Profile)
  | Set_ambientMode (value : string)
  | Set_audioEnabled (value : bool)
  | Set_particlesEnabled (value : bool)
  | Set_endgameBoostEnabled (value : bool)
  | Set_player1Palette (value : string)
  | Set_player2Palette (value : string)
  | Set_currentMatchStats (value : MatchStats)
  | Set_unlockedAchievements (value : list string)
  | Set_totalXP (value : Z)
  | Set_level (value : Z)
  | Set_notOwned (key : string).

(** [ACTIONS], each with the fields of the payload that [dispatch] reads. *)
Inductive action :=
  | SET_TIME (player : Z) (time : Q)
  | DECREMENT_TIME (player : Z)
  | SET_ACTIVE_PLAYER (player : Z)
  | INCREMENT_MOVES (player : Z)
  | TOGGLE_PAUSE
  | SET_PAUSE (paused : bool)
  | RESET_GAME
  | SELECT_PLAYER (playerNum : Z) (profile : option Profile)
  | UPDATE_SETTING (s : setting)
  | ADD_ACHIEVEMENT (achievementId : string)
  | ADD_XP (amount : Z)
  | UPDATE_MATCH_STATS (patch : StatsPatch)
  | SET_DEFAULT_TIME (time : Q)
  | UNKNOWN_ACTION (name : string).

(** Event payloads.  [moveNumber] is [None] when the source computes
    [undefined + 1]. *)
Inductive payload :=
  | PNull
  | PPlayer (player : Z)
  | PSeconds (seconds : Q)
  | PTime (player : Z) (timeRemaining : Q)
  | PSwitched (from to : Z) (moveNumber : option Z)
  | PVictory (winner loser : Z) (winnerTimeRemaining : option Q)
  | PMatchStats (matchStats : MatchStats)
  | PText (text : string).

Inductive args :=
  | NoArgs
  | Data (data : payload)
  | Change (newValue oldValue : fieldValue).

(** ** The world: module-level variables of the five files *)

Record Flags := { low : bool; critical : bool }.
Record ThresholdFlags := { player1 : Flags; player2 : Flags }.

Inductive consoleLine :=
  | Log (text : string)
  | Warn (text : string)
  | Error (text : string) (error : string).

Inductive traceEntry :=
  | Emitted (eventName : string) (data : payload)
  | Commanded (a : action) (after : State) (timer : option nat)
  | Invoked (callee : fn) (arguments : args) (seen : State).

Record World := {
  state : State;
  subscribers : gmap string (list fn);
  listeners : gmap string (list fn);
  debugMode : bool;
  timerInterval : option nat;
  engineInitialized : bool;
  thresholdFlags : ThresholdFlags;
  matchStartTime : option Z;
  lastMoveTime : option Z;
  statsInitialized : bool;
  now : Z;
  handlesIssued : nat;
  closuresCreated : nat;
  console : list consoleLine;
  allTimeUpdates : list (Z * bool);
  trace : list traceEntry
}.

Definition set_state (v : State) (w : World) : World :=
  {| state := v; subscribers := subscribers w; listeners := listeners w;
     debugMode := debugMode w; timerInterval := timerInterval w;
     engineInitialized := engineInitialized w;
     thresholdFlags := thresholdFlags w; matchStartTime := matchStartTime w;
     lastMoveTime := lastMoveTime w; statsInitialized := statsInitialized w;
     now := now w; handlesIssued := handlesIssued w;
     closuresCreated := closuresCreated w; console := console w;
     allTimeUpdates := allTimeUpdates w; trace := trace w |}.

Definition set_subscribers (v : gmap string (list fn)) (w : World) : World :=
  {| state := state w; subscribers := v; listeners := listeners w;
     debugMode := debugMode w; timerInterval := timerInterval w;
     engineInitialized := engineInitialized w;
     thresholdFlags := thresholdFlags w; matchStartTime := matchStartTime w;
     lastMoveTime := lastMoveTime w; statsInitialized := statsInitialized w;
     now := now w; handlesIssued := handlesIssued w;
     closuresCreated := closuresCreated w; console := console w;
     allTimeUpdates := allTimeUpdates w; trace := trace w |}.

Definition set_listeners (v : gmap string (list fn)) (w : World) : World :=
  {| state := state w; subscribers := subscribers w; listeners := v;
     debugMode := debugMode w; timerInterval := timerInterval w;
     engineInitialized := engineInitialized w;
     thresholdFlags := thresholdFlags w; matchStartTime := matchStartTime w;
     lastMoveTime := lastMoveTime w; statsInitialized := statsInitialized w;
     now := now w; handlesIssued := handlesIssued w;
     closuresCreated := closuresCreated w; console := console w;
     allTimeUpdates := allTimeUpdates w; trace := trace w |}.

Definition set_debugMode (v : bool) (w : World) : World :=
  {| state := state w; subscribers := subscribers w;
     listeners := listeners w; debugMode := v;
     timerInterval := timerInterval w;
     engineInitialized := engineInitialized w;
     thresholdFlags := thresholdFlags w; matchStartTime := matchStartTime w;
     lastMoveTime := lastMoveTime w; statsInitialized := statsInitialized w;
     now := now w; handlesIssued := handlesIssued w;
     closuresCreated := closuresCreated w; console := console w;
     allTimeUpdates := allTimeUpdates w; trace := trace w |}.

Definition set_timerInterval (v : option nat) (w : World) : World :=
  {| state := state w; subscribers := subscribers w;
     listeners := listeners w; debugMode := debugMode w; timerInterval := v;
     engineInitialized := engineInitialized w;
     thresholdFlags := thresholdFlags w; matchStartTime := matchStartTime w;
     lastMoveTime := lastMoveTime w; statsInitialized := statsInitialized w;
     now := now w; handlesIssued := handlesIssued w;
     closuresCreated := closuresCreated w; console := console w;
     allTimeUpdates := allTimeUpdates w; trace := trace w |}.

Definition set_engineInitialized (v : bool) (w : World) : World :=
  {| state := state w; subscribers := subscribers w;
     listeners := listeners w; debugMode := debugMode w;
     timerInterval := timerInterval w; engineInitialized := v;
     thresholdFlags := thresholdFlags w; matchStartTime := matchStartTime w;
     lastMoveTime := lastMoveTime w; statsInitialized := statsInitialized w;
     now := now w; handlesIssued := handlesIssued w;
     closuresCreated := closuresCreated w; console := console w;
     allTimeUpdates := allTimeUpdates w; trace := trace w |}.

Definition set_thresholdFlags (v : ThresholdFlags) (w : World) : World :=
  {| state := state w; subscribers := subscribers w;
     listeners := listeners w; debugMode := debugMode w;
     timerInterval := timerInterval w;
     engineInitialized := engineInitialized w; thresholdFlags := v;
     matchStartTime := matchStartTime w; lastMoveTime := lastMoveTime w;
     statsInitialized := statsInitialized w; now := now w;
     handlesIssued := handlesIssued w; closuresCreated := closuresCreated w;
     console := console w; allTimeUpdates := allTimeUpdates w;
     trace := trace w |}.

Definition set_matchStartTime (v : option Z) (w : World) : World :=
  {| state := state w; subscribers := subscribers w;
     listeners := listeners w; debugMode := debugMode w;
     timerInterval := timerInterval w;
     engineInitialized := engineInitialized w;
     thresholdFlags := thresholdFlags w; matchStartTime := v;
     lastMoveTime := lastMoveTime w; statsInitialized := statsInitialized w;
     now := now w; handlesIssued := handlesIssued w;
     closuresCreated := closuresCreated w; console := console w;
     allTimeUpdates := allTimeUpdates w; trace := trace w |}.

Definition set_lastMoveTime (v : option Z) (w : World) : World :=
  {| state := state w; subscribers := subscribers w;
     listeners := listeners w; debugMode := debugMode w;
     timerInterval := timerInterval w;
     engineInitialized := engineInitialized w;
     thresholdFlags := thresholdFlags w; matchStartTime := matchStartTime w;
     lastMoveTime := v; statsInitialized := statsInitialized w;
     now := now w; handlesIssued := handlesIssued w;
     closuresCreated := closuresCreated w; console := console w;
     allTimeUpdates := allTimeUpdates w; trace := trace w |}.

Definition set_statsInitialized (v : bool) (w : World) : World :=
  {| state := state w; subscribers := subscribers w;
     listeners := listeners w; debugMode := debugMode w;
     timerInterval := timerInterval w;
     engineInitialized := engineInitialized w;
     thresholdFlags := thresholdFlags w; matchStartTime := matchStartTime w;
     lastMoveTime := lastMoveTime w; statsInitialized := v; now := now w;
     handlesIssued := handlesIssued w; closuresCreated := closuresCreated w;
     console := console w; allTimeUpdates := allTimeUpdates w;
     trace := trace w |}.

Definition set_now (v : Z) (w : World) : World :=
  {| state := state w; subscribers := subscribers w;
     listeners := listeners w; debugMode := debugMode w;
     timerInterval := timerInterval w;
     engineInitialized := engineInitialized w;
     thresholdFlags := thresholdFlags w; matchStartTime := matchStartTime w;
     lastMoveTime := lastMoveTime w; statsInitialized := statsInitialized w;
     now := v; handlesIssued := handlesIssued w;
     closuresCreated := closuresCreated w; console := console w;
     allTimeUpdates := allTimeUpdates w; trace := trace w |}.

Definition set_handlesIssued (v : nat) (w : World) : World :=
  {| state := state w; subscribers := subscribers w;
     listeners := listeners w; debugMode := debugMode w;
     timerInterval := timerInterval w;
     engineInitialized := engineInitialized w;
     thresholdFlags := thresholdFlags w; matchStartTime := matchStartTime w;
     lastMoveTime := lastMoveTime w; statsInitialized := statsInitialized w;
     now := now w; handlesIssued := v; closuresCreated := closuresCreated w;
     console := console w; allTimeUpdates := allTimeUpdates w;
     trace := trace w |}.

Definition set_closuresCreated (v : nat) (w : World) : World :=
  {| state := state w; subscribers := subscribers w;
     listeners := listeners w; debugMode := debugMode w;
     timerInterval := timerInterval w;
     engineInitialized := engineInitialized w;
     thresholdFlags := thresholdFlags w; matchStartTime := matchStartTime w;
     lastMoveTime := lastMoveTime w; statsInitialized := statsInitialized w;
     now := now w; handlesIssued := handlesIssued w; closuresCreated := v;
     console := console w; allTimeUpdates := allTimeUpdates w;
     trace := trace w |}.

Definition set_console (v : list consoleLine) (w : World) : World :=
  {| state := state w; subscribers := subscribers w;
     listeners := listeners w; debugMode := debugMode w;
     timerInterval := timerInterval w;
     engineInitialized := engineInitialized w;
     thresholdFlags := thresholdFlags w; matchStartTime := matchStartTime w;
     lastMoveTime := lastMoveTime w; statsInitialized := statsInitialized w;
     now := now w; handlesIssued := handlesIssued w;
     closuresCreated := closuresCreated w; console := v;
     allTimeUpdates := allTimeUpdates w; trace := trace w |}.

Definition set_allTimeUpdates (v : list (Z * bool)) (w : World) : World :=
  {| state := state w; subscribers := subscribers w;
     listeners := listeners w; debugMode := debugMode w;
     timerInterval := timerInterval w;
     engineInitialized := engineInitialized w;
     thresholdFlags := thresholdFlags w; matchStartTime := matchStartTime w;
     lastMoveTime := lastMoveTime w; statsInitialized := statsInitialized w;
     now := now w; handlesIssued := handlesIssued w;
     closuresCreated := closuresCreated w; console := console w;
     allTimeUpdates := v; trace := trace w |}.

Definition set_trace (v : list traceEntry) (w : World) : World :=
  {| state := state w; subscribers := subscribers w;
     listeners := listeners w; debugMode := debugMode w;
     timerInterval := timerInterval w;
     engineInitialized := engineInitialized w;
     thresholdFlags := thresholdFlags w; matchStartTime := matchStartTime w;
     lastMoveTime := lastMoveTime w; statsInitialized := statsInitialized w;
     now := now w; handlesIssued := handlesIssued w;
     closuresCreated := closuresCreated w; console := console w;
     allTimeUpdates := allTimeUpdates w; trace := v |}.

Definition noFlags : ThresholdFlags :=
  {| player1 := {| low := false; critical := false |};
     player2 := {| low := false; critical := false |} |}.

(** The world of a page that has loaded the modules and run none of their
    functions yet, at wall-clock time [t0] (milliseconds). *)
Definition pristine (t0 : Z) : World :=
  {| state := initialState; subscribers := ∅; listeners := ∅;
     debugMode := false; timerInterval := None; engineInitialized := false;
     thresholdFlags := noFlags; matchStartTime := None; lastMoveTime := None;
     statsInitialized := false; now := t0; handlesIssued := 0%nat;
     closuresCreated := 0%nat; console := []; allTimeUpdates := [];
     trace := [] |}.

(** ** Computations: state passing with exceptions *)

Inductive result (A : Type) :=
  | Ok (a : A)
  | Thrown (error : string).
Arguments Ok {A} a.
Arguments Thrown {A} error.

Definition M (A : Type) : Type := World -> result A * World.

Definition ret {A} (a : A) : M A := fun w => (Ok a, w).

Definition throw {A} (error : string) : M A := fun w => (Thrown error, w).

Definition bind {A B} (m : M A) (k : A -> M B) : M B :=
  fun w =>
    match m w with
    | (Ok a, w') => k a w'
    | (Thrown error, w') => (Thrown error, w')
    end.

(** [try { m } catch (error) { handler error }] *)
Definition tryCatch (m : M unit) (handler : string -> M unit) : M unit :=
  fun w =>
    match m w with
    | (Ok _, w') => (Ok tt, w')
    | (Thrown error, w') => handler error w'
    end.

Definition gets {A} (f : World -> A) : M A := fun w => (Ok (f w), w).

Definition modify (f : World -> World) : M unit := fun w => (Ok tt, f w).

Notation "'let!' x := m 'in' k" := (bind m (fun x => k))
  (at level 10, x name, m at level 100, k at level 200).
Notation "m ;; k" := (bind m (fun _ => k))
  (at level 100, k at level 200, right associativity).

(** The world a computation leaves behind, returned or thrown. *)
Definition exec {A} (m : M A) (w : World) : World := snd (m w).

Definition returns {A} (m : M A) (w : World) : Prop :=
  exists a, fst (m w) = Ok a.

(** [cbs.forEach(body)] over the array as it stands when the loop starts.
    No function of the source removes an element from an array in place
    ([off] and [unsubscribe] install a filtered copy), and elements pushed
    during the loop are not visited, so the loop visits exactly [cbs]. *)
Fixpoint forEach (cbs : list fn) (body : fn -> M unit) : M unit :=
  match cbs with
  | [] => ret tt
  | callback :: rest => body callback ;; forEach rest body
  end.

Definition when (b : bool) (m : M unit) : M unit := if b then m else ret tt.

Definition consoleLog (text : string) : M unit :=
  modify (fun w => set_console (console w ++ [Log text]) w).

Definition consoleWarn (text : string) : M unit :=
  modify (fun w => set_console (console w ++ [Warn text]) w).

Definition consoleError (text : string) (error : string) : M unit :=
  modify (fun w => set_console (console w ++ [Error text error]) w).

Definition record (e : traceEntry) : M unit :=
  modify (fun w => set_trace (trace w ++ [e]) w).

Definition modifyState (f : State -> State) : M unit :=
  modify (fun w => set_state (f (state w)) w).

(** A number as a template string prints it; [None] is a value the source
    obtained as [undefined] or [NaN]. *)
Definition show (z : Z) : string := pretty z.

Definition showOpt (v : option Z) (missing : string) : string :=
  match v with
  | Some z => pretty z
  | None => missing
  end.

(** A clock time in a template string.  A whole number prints as its
    decimal numeral; of a fraction the host prints a decimal expansion,
    for which the text below carries the fraction in lowest terms. *)
Definition showTime (q : Q) : string :=
  let r := Qred q in
  if (Qden r =? 1)%positive then pretty (Qnum r)
  else pretty (Qnum r) +:+ "/" +:+ pretty (Zpos (Qden r)).

Definition showOptTime (v : option Q) (missing : string) : string :=
  match v with
  | Some q => showTime q
  | None => missing
  end.

(** Calling a function value.  The call itself is [call]; the entry added
    to the trace notes who was called, with what, and which state the
    callee finds. *)
Definition callFn (call : fn -> args -> M unit) (callback : fn) (a : args)
  : M unit :=
  let! s := gets state in
  record (Invoked callback a s) ;;
  call callback a.

(** ** core/events.js *)

Module Events.
Section WithCall.
Variable call : fn -> args -> M unit.

Definition emit (eventName : string) (data : payload) : M unit :=
  record (Emitted eventName data) ;;
  let! debug := gets debugMode in
  when debug (consoleLog ("[Event] 📤 " +:+ eventName)) ;;
  let! registered := gets (fun w => listeners w !! eventName) in
  match registered with
  | Some cbs =>
      forEach cbs (fun callback =>
        tryCatch (callFn call callback (Data data))
          (fun error =>
             consoleError
               ("[Event] Error in listener for " +:+ eventName +:+ ":")
               error))
  | None => ret tt
  end.

(** The function returned by the source, [() => off(eventName, callback)],
    is the call [off eventName callback]. *)
Definition on (eventName : string) (callback : fn) : M unit :=
  let! registered := gets (fun w => listeners w !! eventName) in
  let cbs := match registered with Some cbs => cbs | None => [] end in
  modify (fun w =>
    set_listeners (<[eventName := cbs ++ [callback]]> (listeners w)) w) ;;
  let! debug := gets debugMode in
  when debug (consoleLog ("[Event] 👂 Listening to " +:+ eventName)).

Definition off (eventName : string) (callback : fn) : M unit :=
  let! registered := gets (fun w => listeners w !! eventName) in
  match registered with
  | Some cbs =>
      modify (fun w =>
        set_listeners
          (<[eventName := filter (fun cb => cb ≠ callback) cbs]>
             (listeners w)) w) ;;
      let! debug := gets debugMode in
      when debug (consoleLog ("[Event] 🔇 Stopped listening to " +:+ eventName))
  | None => ret tt
  end.

(** A callback invoked with [a] receives the first argument only. *)
Definition firstArg (a : args) : args :=
  match a with
  | Change newValue _ => Change newValue VUndefined
  | _ => a
  end.

(** The closure [(data) => { callback(data); off(eventName, wrapper) }];
    [OnceWrapper eventName callback serial] is its identity. *)
Definition wrapper (eventName : string) (callback : fn) (serial : nat)
    (a : args) : M unit :=
  callFn call callback (firstArg a) ;;
  off eventName (OnceWrapper eventName callback serial).

(** [once] allocates a fresh closure on every call and registers it; the
    identity of the closure is returned in place of the unsubscribe
    function [() => off(eventName, wrapper)]. *)
Definition once (eventName : string) (callback : fn) : M fn :=
  let! serial := gets closuresCreated in
  modify (set_closuresCreated (S serial)) ;;
  on eventName (OnceWrapper eventName callback serial) ;;
  ret (OnceWrapper eventName callback serial).

Definition offAll (eventName : string) : M unit :=
  let! registered := gets (fun w => listeners w !! eventName) in
  match registered with
  | Some _ =>
      modify (fun w => set_listeners (delete eventName (listeners w)) w) ;;
      let! debug := gets debugMode in
      when debug
        (consoleLog ("[Event] 🔇 Removed all listeners for " +:+ eventName))
  | None => ret tt
  end.

Definition enableDebug : M unit :=
  modify (set_debugMode true) ;;
  consoleLog "[Event] 🐛 Debug mode enabled".

Definition disableDebug : M unit :=
  modify (set_debugMode false) ;;
  consoleLog "[Event] Debug mode disabled".

Definition getListenerCount (eventName : string) : M Z :=
  let! registered := gets (fun w => listeners w !! eventName) in
  ret (match registered with
       | Some cbs => Z.of_nat (length cbs)
       | None => 0
       end).

End WithCall.
End Events.

(** ** core/state.js *)

Module Store.

(** [state[key]] *)
Definition field (key : string) (s : State) : fieldValue :=
  if decide (key = "player1Time") then VTime (player1Time s)
  else if decide (key = "player2Time") then VTime (player2Time s)
  else if decide (key = "player1Moves") then VNum (player1Moves s)
  else if decide (key = "player2Moves") then VNum (player2Moves s)
  else if decide (key = "activePlayer") then VNum (activePlayer s)
  else if decide (key = "isPaused") then VBool (isPaused s)
  else if decide (key = "defaultTime") then VTime (defaultTime s)
  else if decide (key = "selectedPlayer1") then VProfile (selectedPlayer1 s)
  else if decide (key = "selectedPlayer2") then VProfile (selectedPlayer2 s)
  else if decide (key = "ambientMode") then VStr (ambientMode s)
  else if decide (key = "audioEnabled") then VBool (audioEnabled s)
  else if decide (key = "particlesEnabled") then VBool (particlesEnabled s)
  else if decide (key = "endgameBoostEnabled")
    then VBool (endgameBoostEnabled s)
  else if decide (key = "player1Palette") then VStr (player1Palette s)
  else if decide (key = "player2Palette") then VStr (player2Palette s)
  else if decide (key = "currentMatchStats")
    then VStats (currentMatchStats s)
  else if decide (key = "unlockedAchievements")
    then VStrings (unlockedAchievements s)
  else if decide (key = "totalXP") then VNum (totalXP s)
  else if decide (key = "level") then VNum (level s)
  else VUndefined.

(** [payload.key] of a setting, when [state.hasOwnProperty] accepts it. *)
Definition ownedKey (s : setting) : option string :=
  match s with
  | Set_player1Time _ => Some "player1Time"
  | Set_player2Time _ => Some "player2Time"
  | Set_player1Moves _ => Some "player1Moves"
  | Set_player2Moves _ => Some "player2Moves"
  | Set_activePlayer _ => Some "activePlayer"
  | Set_isPaused _ => Some "isPaused"
  | Set_defaultTime _ => Some "defaultTime"
  | Set_selectedPlayer1 _ => Some "selectedPlayer1"
  | Set_selectedPlayer2 _ => Some "selectedPlayer2"
  | Set_ambientMode _ => Some "ambientMode"
  | Set_audioEnabled _ => Some "audioEnabled"
  | Set_particlesEnabled _ => Some "particlesEnabled"
  | Set_endgameBoostEnabled _ => Some "endgameBoostEnabled"
  | Set_player1Palette _ => Some "player1Palette"
  | Set_player2Palette _ => Some "player2Palette"
  | Set_currentMatchStats _ => Some "currentMatchStats"
  | Set_unlockedAchievements _ => Some "unlockedAchievements"
  | Set_totalXP _ => Some "totalXP"
  | Set_level _ => Some "level"
  | Set_notOwned _ => None
  end.

(** [state[payload.key] = payload.value] *)
Definition assign (s : setting) : State -> State :=
  match s with
  | Set_player1Time v => set_player1Time v
  | Set_player2Time v => set_player2Time v
  | Set_player1Moves v => set_player1Moves v
  | Set_player2Moves v => set_player2Moves v
  | Set_activePlayer v => set_activePlayer v
  | Set_isPaused v => set_isPaused v
  | Set_defaultTime v => set_defaultTime v
  | Set_selectedPlayer1 v => set_selectedPlayer1 v
  | Set_selectedPlayer2 v => set_selectedPlayer2 v
  | Set_ambientMode v => set_ambientMode v
  | Set_audioEnabled v => set_audioEnabled v
  | Set_particlesEnabled v => set_particlesEnabled v
  | Set_endgameBoostEnabled v => set_endgameBoostEnabled v
  | Set_player1Palette v => set_player1Palette v
  | Set_player2Palette v => set_player2Palette v
  | Set_currentMatchStats v => set_currentMatchStats v
  | Set_unlockedAchievements v => set_unlockedAchievements v
  | Set_totalXP v => set_totalXP v
  | Set_level v => set_level v
  | Set_notOwned _ => fun st => st
  end.

(** [{ ...state.currentMatchStats, ...payload }] *)
Definition spread (m : MatchStats) (p : StatsPatch) : MatchStats :=
  {| startTime := default (startTime m) (patch_startTime p);
     moves := default (moves m) (patch_moves p);
     avgMoveTime := default (avgMoveTime m) (patch_avgMoveTime p);
     longestThink := default (longestThink m) (patch_longestThink p);
     fastestMove := default (fastestMove m) (patch_fastestMove p) |}.

Definition getState : M State := gets state.

Definition get {A} (key : State -> A) : M A := gets (fun w => key (state w)).

Definition subscribe (key : string) (callback : fn) : M unit :=
  let! registered := gets (fun w => subscribers w !! key) in
  let cbs := match registered with Some cbs => cbs | None => [] end in
  modify (fun w =>
    set_subscribers (<[key := cbs ++ [callback]]> (subscribers w)) w).

Definition unsubscribe (key : string) (callback : fn) : M unit :=
  let! registered := gets (fun w => subscribers w !! key) in
  match registered with
  | Some cbs =>
      modify (fun w =>
        set_subscribers
          (<[key := filter (fun cb => cb ≠ callback) cbs]> (subscribers w))
          w)
  | None => ret tt
  end.

Section WithCall.
Variable call : fn -> args -> M unit.

Definition notify (key : string) (newValue oldValue : fieldValue) : M unit :=
  let! registered := gets (fun w => subscribers w !! key) in
  match registered with
  | Some cbs =>
      forEach cbs (fun callback =>
        tryCatch (callFn call callback (Change newValue oldValue))
          (fun error =>
             consoleError
               ("[State] Subscriber error for key " +:+ key +:+ ":")
               error))
  | None => ret tt
  end.

(** [notify(key, state[key], prevState[key])]: the new value is read when
    the call is made. *)
Definition announce (key : string) (prevState : State) : M unit :=
  let! s := gets state in
  notify key (field key s) (field key prevState).

Definition dispatch (a : action) : M unit :=
  let! prevState := gets state in
  match a with
  | SET_TIME player time =>
      if player =? 1 then
        modifyState (set_player1Time time) ;;
        announce "player1Time" prevState
      else if player =? 2 then
        modifyState (set_player2Time time) ;;
        announce "player2Time" prevState
      else ret tt
  | DECREMENT_TIME player =>
      let! s := gets state in
      if (player =? 1) && negb (Qle_bool (player1Time s) 0) then
        modifyState (fun s => set_player1Time (player1Time s - 1)%Q s) ;;
        announce "player1Time" prevState
      else if (player =? 2) && negb (Qle_bool (player2Time s) 0) then
        modifyState (fun s => set_player2Time (player2Time s - 1)%Q s) ;;
        announce "player2Time" prevState
      else ret tt
  | SET_ACTIVE_PLAYER player =>
      modifyState (set_activePlayer player) ;;
      announce "activePlayer" prevState
  | INCREMENT_MOVES player =>
      if player =? 1 then
        modifyState (fun s => set_player1Moves (player1Moves s + 1) s) ;;
        announce "player1Moves" prevState
      else if player =? 2 then
        modifyState (fun s => set_player2Moves (player2Moves s + 1) s) ;;
        announce "player2Moves" prevState
      else ret tt
  | TOGGLE_PAUSE =>
      modifyState (fun s => set_isPaused (negb (isPaused s)) s) ;;
      announce "isPaused" prevState
  | SET_PAUSE paused =>
      modifyState (set_isPaused paused) ;;
      announce "isPaused" prevState
  | RESET_GAME =>
      modifyState (fun s => set_player1Time (defaultTime s) s) ;;
      modifyState (fun s => set_player2Time (defaultTime s) s) ;;
      modifyState (set_player1Moves 0) ;;
      modifyState (set_player2Moves 0) ;;
      modifyState (set_activePlayer 0) ;;
      modifyState (set_isPaused true) ;;
      modifyState (set_currentMatchStats emptyMatchStats) ;;
      announce "player1Time" prevState ;;
      announce "player2Time" prevState ;;
      announce "player1Moves" prevState ;;
      announce "player2Moves" prevState ;;
      announce "activePlayer" prevState ;;
      announce "isPaused" prevState
  | SELECT_PLAYER playerNum profile =>
      if playerNum =? 1 then
        modifyState (set_selectedPlayer1 profile) ;;
        announce "selectedPlayer1" prevState
      else if playerNum =? 2 then
        modifyState (set_selectedPlayer2 profile) ;;
        announce "selectedPlayer2" prevState
      else ret tt
  | UPDATE_SETTING s =>
      match ownedKey s with
      | Some key =>
          modifyState (assign s) ;;
          announce key prevState
      | None => ret tt
      end
  | ADD_ACHIEVEMENT achievementId =>
      let! s := gets state in
      if bool_decide (achievementId ∈ unlockedAchievements s) then ret tt
      else
        (* [push] mutates the array that the shallow copy [prevState]
           shares: the old value handed to subscribers is the new one *)
        modifyState (fun s =>
          set_unlockedAchievements
            (unlockedAchievements s ++ [achievementId]) s) ;;
        let! s := gets state in
        notify "unlockedAchievements"
          (VStrings (unlockedAchievements s))
          (VStrings (unlockedAchievements s))
  | ADD_XP amount =>
      modifyState (fun s => set_totalXP (totalXP s + amount) s) ;;
      let! s := gets state in
      let newLevel := totalXP s / 100 + 1 in
      when (level s <? newLevel)
        (modifyState (set_level newLevel) ;;
         announce "level" prevState) ;;
      announce "totalXP" prevState
  | UPDATE_MATCH_STATS patch =>
      modifyState (fun s =>
        set_currentMatchStats (spread (currentMatchStats s) patch) s) ;;
      announce "currentMatchStats" prevState
  | SET_DEFAULT_TIME time =>
      modifyState (set_defaultTime time) ;;
      announce "defaultTime" prevState
  | UNKNOWN_ACTION name =>
      consoleWarn ("[State] Unknown action: " +:+ name)
  end ;;
  let! s := gets state in
  let! timer := gets timerInterval in
  record (Commanded a s timer) ;;
  notify "*" (VState s) (VState prevState).

End WithCall.
End Store.

(** ** modules/game/rules.js *)

Module Rules.

Definition canPlayerSwitch (player activePlayer : Z) : bool :=
  if activePlayer =? 0 then true
  else activePlayer =? player.

Definition checkGameOver (player1Time player2Time : Q) : option (Z * Z) :=
  if Qle_bool player1Time 0 then Some (2, 1)
  else if Qle_bool player2Time 0 then Some (1, 2)
  else None.

Definition isValidTime (time : Q) : bool :=
  negb (Qle_bool time 0) && negb (Qle_bool 86400 time).

Definition isValidPlayer (player : Z) : bool :=
  (player =? 1) || (player =? 2).

End Rules.

(** ** core/config.js: the two thresholds the engine reads *)

Module CONFIG.
Definition LOW_TIME_THRESHOLD : Q := 60.
Definition CRITICAL_THRESHOLD : Q := 10.
End CONFIG.

(** ** modules/game/engine.js *)

Module Engine.

(** [get(`player${player}Moves`)] and [get(`player${player}Time`)]:
    [None] when the state has no such key. *)
Definition playerMoves (player : Z) (s : State) : option Z :=
  if player =? 1 then Some (player1Moves s)
  else if player =? 2 then Some (player2Moves s)
  else None.

Definition playerTime (player : Z) (s : State) : option Q :=
  if player =? 1 then Some (player1Time s)
  else if player =? 2 then Some (player2Time s)
  else None.

(** [thresholdFlags[`player${player}`]] *)
Definition flagsOf (player : Z) (t : ThresholdFlags) : option Flags :=
  if player =? 1 then Some (player1 t)
  else if player =? 2 then Some (player2 t)
  else None.

Definition setFlagsOf (player : Z) (f : Flags) (t : ThresholdFlags)
  : ThresholdFlags :=
  if player =? 1 then {| player1 := f; player2 := player2 t |}
  else if player =? 2 then {| player1 := player1 t; player2 := f |}
  else t.

(** [setInterval(tick, 1000)]: the host hands out a fresh handle.  The
    engine holds at most one interval, the one whose handle is in
    [timerInterval]; [clearInterval] of that handle cancels it. *)
Definition setInterval : M nat :=
  let! issued := gets handlesIssued in
  modify (set_handlesIssued (S issued)) ;;
  ret (S issued).

Definition startTimer : M unit :=
  let! timer := gets timerInterval in
  match timer with
  | Some _ => ret tt
  | None =>
      let! handle := setInterval in
      modify (set_timerInterval (Some handle)) ;;
      consoleLog "[Game] Timer started"
  end.

Definition stopTimer : M unit :=
  let! timer := gets timerInterval in
  match timer with
  | Some _ =>
      modify (set_timerInterval None) ;;
      consoleLog "[Game] Timer stopped"
  | None => ret tt
  end.

(** [running] of [getStatus], together with the pause flag: the
    scheduler is armed and the clock is not paused. *)
Definition running (s : State) (timer : option nat) : bool :=
  negb (isPaused s) && bool_decide (timer ≠ None).

Section WithCall.
Variable call : fn -> args -> M unit.

Local Abbreviation dispatch := (Store.dispatch call).
Local Abbreviation emit := (Events.emit call).
Local Abbreviation get := Store.get.

Definition setupEventListeners : M unit :=
  Events.on "ui:start-clicked" EngineHandleStart ;;
  Events.on "ui:pause-clicked" EngineHandlePause ;;
  Events.on "ui:reset-clicked" EngineResetGame ;;
  Events.on "ui:player-clicked" EngineHandlePlayerClick ;;
  Events.on "ui:time-selected" EngineHandleTimeSelected.

Definition init : M unit :=
  let! initialized := gets engineInitialized in
  if initialized then consoleWarn "[Game] Already initialized"
  else
    setupEventListeners ;;
    modify (set_engineInitialized true) ;;
    emit "game:initialized" PNull ;;
    consoleLog "[Game] Engine initialized".

Definition handleStart : M unit :=
  let! activePlayer := get activePlayer in
  let! isPaused := get isPaused in
  when (negb (activePlayer =? 0) && isPaused)
    (dispatch (SET_PAUSE false) ;;
     startTimer ;;
     emit "game:resumed" PNull).

Definition handlePause : M unit :=
  let! isPaused := get isPaused in
  let! activePlayer := get activePlayer in
  if activePlayer =? 0 then ret tt
  else if isPaused then
    dispatch (SET_PAUSE false) ;;
    startTimer ;;
    emit "game:resumed" PNull
  else
    dispatch (SET_PAUSE true) ;;
    stopTimer ;;
    emit "game:paused" PNull.

Definition handlePlayerClick (player : Z) : M unit :=
  let! activePlayer := get activePlayer in
  let! isPaused := get isPaused in
  if negb (Rules.canPlayerSwitch player activePlayer) then ret tt
  else if isPaused && negb (activePlayer =? 0) then ret tt
  else if activePlayer =? 0 then
    dispatch (SET_ACTIVE_PLAYER player) ;;
    dispatch (SET_PAUSE false) ;;
    startTimer ;;
    emit "game:started" (PPlayer player) ;;
    consoleLog ("[Game] Game started by player " +:+ show player)
  else
    let newPlayer := if player =? 1 then 2 else 1 in
    let! moves := get (playerMoves player) in
    let moveNumber := (fun m => m + 1) <$> moves in
    dispatch (INCREMENT_MOVES player) ;;
    dispatch (SET_ACTIVE_PLAYER newPlayer) ;;
    emit "game:player-switched" (PSwitched player newPlayer moveNumber) ;;
    consoleLog ("[Game] Player " +:+ show player +:+ " switched to player "
                +:+ show newPlayer +:+ " (move "
                +:+ showOpt moveNumber "NaN" +:+ ")").

Definition setTime (seconds : Q) : M unit :=
  dispatch (SET_DEFAULT_TIME seconds) ;;
  dispatch (SET_TIME 1 seconds) ;;
  dispatch (SET_TIME 2 seconds) ;;
  modify (set_thresholdFlags noFlags) ;;
  consoleLog ("[Game] Time set to " +:+ showTime seconds +:+ " seconds").

Definition handleTimeSelected (seconds : Q) : M unit :=
  if negb (Rules.isValidTime seconds) then
    consoleError "[Game] Invalid time selected:" (showTime seconds)
  else setTime seconds.

(** Reading [thresholdFlags[playerKey].low] of a player that has no flags
    is a [TypeError]; it is only read once the time equals the
    threshold. *)
Definition checkTimeThresholds (player : Z) (timeRemaining : Q) : M unit :=
  (if Qeq_bool timeRemaining CONFIG.LOW_TIME_THRESHOLD then
     let! flags := gets thresholdFlags in
     match flagsOf player flags with
     | None => throw "TypeError: Cannot read properties of undefined"
     | Some f =>
         when (negb (low f))
           (modify (set_thresholdFlags
              (setFlagsOf player {| low := true; critical := critical f |}
                 flags)) ;;
            emit "game:low-time" (PTime player timeRemaining) ;;
            consoleLog ("[Game] Player " +:+ show player
                        +:+ " reached low time (" +:+ showTime timeRemaining
                        +:+ "s)"))
     end
   else ret tt) ;;
  (if Qeq_bool timeRemaining CONFIG.CRITICAL_THRESHOLD then
     let! flags := gets thresholdFlags in
     match flagsOf player flags with
     | None => throw "TypeError: Cannot read properties of undefined"
     | Some f =>
         when (negb (critical f))
           (modify (set_thresholdFlags
              (setFlagsOf player {| low := low f; critical := true |}
                 flags)) ;;
            emit "game:critical-time" (PTime player timeRemaining) ;;
            consoleLog ("[Game] Player " +:+ show player
                        +:+ " reached critical time (" +:+ showTime timeRemaining
                        +:+ "s)"))
     end
   else ret tt).

Definition handleVictory (winner : Z) : M unit :=
  stopTimer ;;
  let loser := if winner =? 1 then 2 else 1 in
  let! winnerTimeRemaining := get (playerTime winner) in
  dispatch (SET_PAUSE true) ;;
  dispatch (SET_ACTIVE_PLAYER 0) ;;
  emit "game:victory" (PVictory winner loser winnerTimeRemaining) ;;
  consoleLog ("[Game] Victory! Player " +:+ show winner +:+ " wins with "
              +:+ showOptTime winnerTimeRemaining "undefined"
              +:+ "s remaining").

Definition tick : M unit :=
  let! activePlayer := get activePlayer in
  let! isPaused := get isPaused in
  if (activePlayer =? 0) || isPaused then ret tt
  else
    dispatch (DECREMENT_TIME activePlayer) ;;
    let! timeRemaining :=
      get (if activePlayer =? 1 then player1Time else player2Time) in
    emit "game:tick" (PTime activePlayer timeRemaining) ;;
    checkTimeThresholds activePlayer timeRemaining ;;
    when (Qle_bool timeRemaining 0)
      (let winner := if activePlayer =? 1 then 2 else 1 in
       handleVictory winner).

Definition resetGame : M unit :=
  stopTimer ;;
  dispatch RESET_GAME ;;
  modify (set_thresholdFlags noFlags) ;;
  emit "game:reset" PNull ;;
  consoleLog "[Game] Game reset".

End WithCall.
End Engine.

(** ** modules/gamification/stats.js *)

Module Stats.

Definition seconds (milliseconds : Z) : Q := (inject_Z milliseconds / 1000)%Q.

Definition positive (q : Q) : bool := negb (Qle_bool q 0).

(** [moves.slice(1).filter(m => m.time > 0)] *)
Definition validMoves (moves : list MoveRecord) : list MoveRecord :=
  filter (fun m => positive (move_time m) = true) (drop 1 moves).

Definition total (ms : list MoveRecord) : Q :=
  fold_left (fun sum m => (sum + move_time m)%Q) ms 0%Q.

(** [Math.max(...times)] and [Math.min(...times)] of a non-empty list *)
Definition maximum (times : list Q) : Q :=
  match times with
  | [] => 0%Q
  | t :: rest => fold_left Qmax rest t
  end.

Definition minimum (times : list Q) : Q :=
  match times with
  | [] => 0%Q
  | t :: rest => fold_left Qmin rest t
  end.

(** The persistence of all-time statistics in [localStorage] is outside
    the core; the embedding keeps the calls that were made, each with the
    profile and whether that player won. *)
Definition updateAllTimeStats (profile : Z) (matchStats : MatchStats)
    (won : bool) : M unit :=
  modify (fun w => set_allTimeUpdates (allTimeUpdates w ++ [(profile, won)]) w).

Section WithCall.
Variable call : fn -> args -> M unit.

Local Abbreviation dispatch := (Store.dispatch call).
Local Abbreviation emit := (Events.emit call).
Local Abbreviation get := Store.get.

Definition startMatch : M unit :=
  let! t := gets now in
  modify (set_matchStartTime (Some t)) ;;
  let! t' := gets now in
  modify (set_lastMoveTime (Some t')) ;;
  let! started := gets matchStartTime in
  dispatch (UPDATE_MATCH_STATS
    {| patch_startTime := Some started; patch_moves := Some [];
       patch_avgMoveTime := Some 0%Q; patch_longestThink := Some 0%Q;
       patch_fastestMove := Some 0%Q |}) ;;
  consoleLog "[Stats] Match started".

Definition recordMove (player : Z) (timeRemaining : option Q) : M unit :=
  let! moveTime := gets now in
  let! last := gets lastMoveTime in
  let timeTaken := seconds (moveTime - default 0 last) in
  modify (set_lastMoveTime (Some moveTime)) ;;
  let! currentStats := get currentMatchStats in
  let moves :=
    moves currentStats ++
      [{| move_player := player; move_time := timeTaken;
          move_timeRemaining := timeRemaining;
          move_timestamp := moveTime |}] in
  let valid := validMoves moves in
  let count := inject_Z (Z.of_nat (length valid)) in
  let avgMoveTime :=
    if (0 <? length valid)%nat then (total valid / count)%Q else 0%Q in
  let longestThink :=
    if (0 <? length valid)%nat then maximum (move_time <$> valid)
    else 0%Q in
  let fastestMove :=
    if (0 <? length valid)%nat then minimum (move_time <$> valid)
    else 0%Q in
  dispatch (UPDATE_MATCH_STATS
    {| patch_startTime := None; patch_moves := Some moves;
       patch_avgMoveTime := Some avgMoveTime;
       patch_longestThink := Some longestThink;
       patch_fastestMove := Some fastestMove |}).

Definition handlePlayerSwitch (from : Z) : M unit :=
  let! timeRemaining := get (Engine.playerTime from) in
  recordMove from timeRemaining.

Definition getMatchStats : M MatchStats := get currentMatchStats.

Definition handleVictory (winner : Z) : M unit :=
  let! matchStats := getMatchStats in
  emit "gamification:stats-updated" (PMatchStats matchStats) ;;
  let! player1 := get selectedPlayer1 in
  let! player2 := get selectedPlayer2 in
  match player1 with
  | Some p => updateAllTimeStats (profileId p) matchStats (winner =? 1)
  | None => ret tt
  end ;;
  match player2 with
  | Some p => updateAllTimeStats (profileId p) matchStats (winner =? 2)
  | None => ret tt
  end ;;
  consoleLog "[Stats] Match ended".

Definition setupEventListeners : M unit :=
  Events.on "game:started" StatsStartMatch ;;
  Events.on "game:player-switched" StatsHandlePlayerSwitch ;;
  Events.on "game:victory" StatsHandleVictory.

Definition init : M unit :=
  let! initialized := gets statsInitialized in
  if initialized then ret tt
  else
    setupEventListeners ;;
    modify (set_statsInitialized true) ;;
    consoleLog "[Stats] Initialized".

End WithCall.
End Stats.

(** ** Calling a function value *)

(** The code of the functions of other modules: [user id call a] is what
    function number [id] does when called with [a], given the means [call]
    to call function values in turn. *)
Definition userCode : Type := nat -> (fn -> args -> M unit) -> args -> M unit.

(** No other module: a function that was never defined is not callable. *)
Definition noUser : userCode :=
  fun _ _ _ => throw "TypeError: callback is not a function".

(** The body of the function value [f] applied to [a], where [call] calls
    the function values that the body calls in turn.  A listener of the
    engine or of the statistics destructures the payload it expects;
    payloads of another shape are outside the typed embedding and are
    reported as the [TypeError] that the source raises on [null]. *)
Definition bodyOf (user : userCode) (call : fn -> args -> M unit)
    (f : fn) (a : args) : M unit :=
  match f with
  | EngineHandleStart => Engine.handleStart call
  | EngineHandlePause => Engine.handlePause call
  | EngineResetGame => Engine.resetGame call
  | EngineHandlePlayerClick =>
      match a with
      | Data (PPlayer player) => Engine.handlePlayerClick call player
      | _ => throw "TypeError: Cannot destructure property"
      end
  | EngineHandleTimeSelected =>
      match a with
      | Data (PSeconds seconds) => Engine.handleTimeSelected call seconds
      | _ => throw "TypeError: Cannot destructure property"
      end
  | EngineTick => Engine.tick call
  | StatsStartMatch => Stats.startMatch call
  | StatsHandlePlayerSwitch =>
      match a with
      | Data (PSwitched from _ _) => Stats.handlePlayerSwitch call from
      | _ => throw "TypeError: Cannot read properties"
      end
  | StatsHandleVictory =>
      match a with
      | Data (PVictory winner _ _) => Stats.handleVictory call winner
      | _ => throw "TypeError: Cannot read properties"
      end
  | OnceWrapper eventName callback serial =>
      Events.wrapper call eventName callback serial a
  | UserFn id => user id call a
  end.

(** [invoke user depth f a] runs the body of [f] on the arguments [a] with
    room for [depth] nested frames on the call stack; the host raises a
    [RangeError] when the stack is exhausted. *)
Fixpoint invoke (user : userCode) (depth : nat) (f : fn) (a : args) : M unit :=
  match depth with
  | O => throw "RangeError: Maximum call stack size exceeded"
  | S depth' => bodyOf user (invoke user depth') f a
  end.

(** ** The clock as driven from outside *)

(** What reaches the engine: the five requests of the user interface, a
    direct call of the exported [setTime], and the scheduler. *)
Inductive op :=
  | PlayerClicked (player : Z)
  | StartClicked
  | PauseClicked
  | ResetClicked
  | TimeSelected (seconds : Q)
  | SetTime (seconds : Q)
  | SchedulerFires.

(** One second passes; the host calls [tick] if the interval is armed.  An
    exception that escapes [tick] is reported by the host. *)
Definition schedulerFires (call : fn -> args -> M unit) : M unit :=
  modify (fun w => set_now (now w + 1000) w) ;;
  let! timer := gets timerInterval in
  match timer with
  | Some _ =>
      tryCatch (callFn call EngineTick NoArgs)
        (fun error => consoleError "Uncaught" error)
  | None => ret tt
  end.

Definition perform (call : fn -> args -> M unit) (o : op) : M unit :=
  match o with
  | PlayerClicked player => Events.emit call "ui:player-clicked" (PPlayer player)
  | StartClicked => Events.emit call "ui:start-clicked" PNull
  | PauseClicked => Events.emit call "ui:pause-clicked" PNull
  | ResetClicked => Events.emit call "ui:reset-clicked" PNull
  | TimeSelected seconds => Events.emit call "ui:time-selected" (PSeconds seconds)
  | SetTime seconds => Engine.setTime call seconds
  | SchedulerFires => schedulerFires call
  end.

Fixpoint performAll (call : fn -> args -> M unit) (ops : list op) (w : World)
  : World :=
  match ops with
  | [] => w
  | o :: rest => performAll call rest (exec (perform call o) w)
  end.

(** The core in isolation: the engine and the statistics, no other module.
    [S (S slack)] frames are enough for every request: a handler of the
    engine publishes to a handler of the statistics, which calls nobody. *)
Definition core (slack : nat) : fn -> args -> M unit :=
  invoke noUser (S (S slack)).

(** Both modules have been initialised on a pristine page. *)
Definition booted (slack : nat) (t0 : Z) : World :=
  exec (Engine.init (core slack) ;; Stats.init) (pristine t0).

(** ** Reading the trace *)

(** The payloads published under [eventName], oldest first. *)
Definition published (eventName : string) (tr : list traceEntry)
  : list payload :=
  omap (fun e =>
          match e with
          | Emitted name data =>
              if decide (name = eventName) then Some data else None
          | _ => None
          end) tr.

(** The calls of function values, oldest first. *)
Definition invocations (tr : list traceEntry) : list (fn * args) :=
  omap (fun e =>
          match e with
          | Invoked callee a _ => Some (callee, a)
          | _ => None
          end) tr.

(** How many times [f] was called. *)
Definition timesCalled (f : fn) (tr : list traceEntry) : nat :=
  length (filter (fun c => fst c = f) (invocations tr)).

(** The payloads of [eventName] that concern [player]. *)
Definition concerns (player : Z) (d : payload) : bool :=
  match d with
  | PTime p _ => p =? player
  | _ => false
  end.

Definition alerts (eventName : string) (player : Z) (tr : list traceEntry)
  : list payload :=
  filter (fun d => concerns player d = true) (published eventName tr).

(** * Properties of the coordination core *)

(** ** Vocabulary *)


(** Both players' times are at 0 or above. *)
Definition timesOk (s : State) : Prop :=
  (0 <= player1Time s)%Q /\ (0 <= player2Time s)%Q.

(** A whole number of seconds, not negative. *)
Definition wholeSeconds (q : Q) : Prop :=
  exists n : Z, 0 <= n /\ (q == inject_Z n)%Q.

(** The two times and the default time are whole numbers of seconds. *)
Definition wholeTimes (s : State) : Prop :=
  wholeSeconds (player1Time s) /\ wholeSeconds (player2Time s) /\
  wholeSeconds (defaultTime s).

(** The state that an entry of the trace shows. *)
Definition shown (e : traceEntry) : option State :=
  match e with
  | Emitted _ _ => None
  | Commanded _ s _ => Some s
  | Invoked _ _ s => Some s
  end.

(** No state that was shown, and not the current one, has a negative
    time. *)
Definition neverNegative (w : World) : Prop :=
  timesOk (state w) /\
  forall e s, e ∈ trace w -> shown e = Some s -> timesOk s.

(** Every state that was shown, and the current one, keeps whole times. *)
Definition wholeClocks (w : World) : Prop :=
  wholeTimes (state w) /\
  forall e s, e ∈ trace w -> shown e = Some s -> wholeTimes s.

(** A command that writes nothing but whole numbers of seconds into a
    time. *)
Definition seedsWholeSeconds (a : action) : Prop :=
  match a with
  | SET_TIME _ time => wholeSeconds time
  | SET_DEFAULT_TIME time => wholeSeconds time
  | UPDATE_SETTING (Set_player1Time value) => wholeSeconds value
  | UPDATE_SETTING (Set_player2Time value) => wholeSeconds value
  | UPDATE_SETTING (Set_defaultTime value) => wholeSeconds value
  | _ => True
  end.

Fixpoint dispatchAll (call : fn -> args -> M unit) (cmds : list action)
    (w : World) : World :=
  match cmds with
  | [] => w
  | a :: rest => dispatchAll call rest (exec (Store.dispatch call a) w)
  end.

(** A callback that does nothing, and one module that fails: function 0
    throws whatever it is called with. *)
Definition bystander : fn -> args -> M unit := fun _ _ => ret tt.

(** A page with two subscribers of the store. *)
Definition watched : World :=
  exec (Store.subscribe "player1Time" (UserFn 0) ;;
        Store.subscribe "*" (UserFn 1)) (pristine 0).





(** A listener that publishes the event once more when it is told so
    (function 0), and a listener that throws (function 1). *)
Definition echo : userCode :=
  fun id call a =>
    match id, a with
    | O, Data (PText "again") => Events.emit call "news" (PText "enough")
    | 1%nat, _ => throw "Error: listener failed"
    | _, _ => ret tt
    end.

(** A game in which player 1 has started the clock, and the same game
    paused. *)
Definition midgame : World :=
  performAll (core 0) [PlayerClicked 1] (booted 0 0).

Definition pausedGame : World :=
  performAll (core 0) [PlayerClicked 1; PauseClicked] (booted 0 0).

(** ** Vocabulary of the engine's invariants *)

(** The listeners that [Engine.init] and [Stats.init] register. *)
Definition wiring : gmap string (list fn) :=
  list_to_map
    [("ui:start-clicked", [EngineHandleStart]);
     ("ui:pause-clicked", [EngineHandlePause]);
     ("ui:reset-clicked", [EngineResetGame]);
     ("ui:player-clicked", [EngineHandlePlayerClick]);
     ("ui:time-selected", [EngineHandleTimeSelected]);
     ("game:started", [StatsStartMatch]);
     ("game:player-switched", [StatsHandlePlayerSwitch]);
     ("game:victory", [StatsHandleVictory])].

(** The core in isolation: the listeners are those of the engine and of the
    statistics, nobody is subscribed to the store, debugging is off. *)
Record wired (w : World) : Prop := {
  wired_listeners : listeners w = wiring;
  wired_subscribers : subscribers w = ∅;
  wired_debug : debugMode w = false
}.

(** What a command does to the state. *)
Definition effect (a : action) (s : State) : State :=
  match a with
  | SET_TIME player time =>
      if player =? 1 then set_player1Time time s
      else if player =? 2 then set_player2Time time s
      else s
  | DECREMENT_TIME player =>
      if (player =? 1) && negb (Qle_bool (player1Time s) 0)
      then set_player1Time (player1Time s - 1)%Q s
      else if (player =? 2) && negb (Qle_bool (player2Time s) 0)
      then set_player2Time (player2Time s - 1)%Q s
      else s
  | SET_ACTIVE_PLAYER player => set_activePlayer player s
  | INCREMENT_MOVES player =>
      if player =? 1 then set_player1Moves (player1Moves s + 1) s
      else if player =? 2 then set_player2Moves (player2Moves s + 1) s
      else s
  | TOGGLE_PAUSE => set_isPaused (negb (isPaused s)) s
  | SET_PAUSE paused => set_isPaused paused s
  | RESET_GAME =>
      set_currentMatchStats emptyMatchStats
        (set_isPaused true
           (set_activePlayer 0
              (set_player2Moves 0
                 (set_player1Moves 0
                    (set_player2Time (defaultTime s)
                       (set_player1Time (defaultTime s) s))))))
  | SELECT_PLAYER playerNum profile =>
      if playerNum =? 1 then set_selectedPlayer1 profile s
      else if playerNum =? 2 then set_selectedPlayer2 profile s
      else s
  | UPDATE_SETTING st => Store.assign st s
  | ADD_ACHIEVEMENT achievementId =>
      if bool_decide (achievementId ∈ unlockedAchievements s) then s
      else set_unlockedAchievements
             (unlockedAchievements s ++ [achievementId]) s
  | ADD_XP amount =>
      let s1 := set_totalXP (totalXP s + amount) s in
      if level s1 <? totalXP s1 / 100 + 1
      then set_level (totalXP s1 / 100 + 1) s1
      else s1
  | UPDATE_MATCH_STATS patch =>
      set_currentMatchStats (Store.spread (currentMatchStats s) patch) s
  | SET_DEFAULT_TIME time => set_defaultTime time s
  | UNKNOWN_ACTION _ => s
  end.

(** The world after a command when nobody is subscribed. *)
Definition commit (a : action) (w : World) : World :=
  let s := effect a (state w) in
  {| state := s; subscribers := subscribers w; listeners := listeners w;
     debugMode := debugMode w; timerInterval := timerInterval w;
     engineInitialized := engineInitialized w;
     thresholdFlags := thresholdFlags w; matchStartTime := matchStartTime w;
     lastMoveTime := lastMoveTime w; statsInitialized := statsInitialized w;
     now := now w; handlesIssued := handlesIssued w;
     closuresCreated := closuresCreated w;
     console :=
       match a with
       | UNKNOWN_ACTION name =>
           console w ++ [Warn ("[State] Unknown action: " +:+ name)]
       | _ => console w
       end;
     allTimeUpdates := allTimeUpdates w;
     trace := trace w ++ [Commanded a s (timerInterval w)] |}.

(** The world after an event was published to nobody. *)
Definition announced (eventName : string) (data : payload) (w : World)
  : World :=
  set_trace (trace w ++ [Emitted eventName data]) w.

(** The world in which the one listener of an event starts to run. *)
Definition handed (eventName : string) (data : payload) (f : fn) (w : World)
  : World :=
  set_trace
    (trace w ++ [Emitted eventName data; Invoked f (Data data) (state w)]) w.

(** The world after the one listener of an event has run and left [w']
    with result [r]: a fault is logged. *)
Definition settled (eventName : string) (r : result unit) (w' : World)
  : World :=
  match r with
  | Ok _ => w'
  | Thrown error =>
      set_console
        (console w' ++
           [Error ("[Event] Error in listener for " +:+ eventName +:+ ":")
              error]) w'
  end.

(** [wp m Q w]: running [m] in [w] ends with a result and a world that
    satisfy [Q]. *)
Definition wp {A} (m : M A) (Q : result A -> World -> Prop) (w : World)
  : Prop :=
  Q (fst (m w)) (snd (m w)).

(** An entry of the trace in which no clock runs without an owner. *)
Definition calm (e : traceEntry) : Prop :=
  match e with
  | Commanded _ s timer => activePlayer s = 0 -> Engine.running s timer = false
  | _ => True
  end.

(** The standing of the core between two requests. *)
Record Steady (w : World) : Prop := {
  steady_wired : wired w;
  steady_player :
    activePlayer (state w) = 0 \/ activePlayer (state w) = 1 \/
    activePlayer (state w) = 2;
  steady_idle : activePlayer (state w) = 0 -> isPaused (state w) = true;
  steady_trace : Forall calm (trace w)
}.

(** A request as the user interface raises it: the player is 1 or 2. *)
Definition validOp (o : op) : Prop :=
  match o with
  | PlayerClicked player => player = 1 \/ player = 2
  | _ => True
  end.

(** The log of the match has one entry per move made. *)
Definition Logged (w : World) : Prop :=
  Z.of_nat (length (moves (currentMatchStats (state w)))) =
  player1Moves (state w) + player2Moves (state w).


(** A request that does not start a game on the counters a finished game
    has left: victory clears the active player and keeps the counters,
    and only a reset zeroes them. *)
Definition opensFresh (o : op) (w : World) : Prop :=
  match o with
  | PlayerClicked _ =>
      activePlayer (state w) = 0 ->
      player1Moves (state w) + player2Moves (state w) = 0
  | _ => True
  end.


(** The requests of [ops], served from [w] on, stay within matches that
    were started from zeroed counters. *)
Fixpoint withinMatch (call : fn -> args -> M unit) (ops : list op) (w : World)
  : Prop :=
  match ops with
  | [] => True
  | o :: rest =>
      validOp o /\ opensFresh o w /\
      withinMatch call rest (exec (perform call o) w)
  end.




(** The payload of a tick that leaves the clock of [player] at
    [threshold]. *)
Definition reads (player : Z) (threshold : Q) (d : payload) : bool :=
  match d with
  | PTime p timeRemaining =>
      if p =? player then Qeq_bool timeRemaining threshold else false
  | _ => false
  end.

(** Some tick recorded in [tr] left the clock of [player] at [threshold]. *)
Definition clockRead (player : Z) (threshold : Q) (tr : list traceEntry)
  : bool :=
  existsb (reads player threshold) (published "game:tick" tr).





(** ** Vocabulary of further properties *)

(** Callbacks that read the state and do not write it. *)
Definition observers (call : fn -> args -> M unit) : Prop :=
  forall f a w, state (exec (call f a) w) = state w.

(** A command that names no field of the state, a decrement of a clock
    that has run out, or an achievement that is unlocked already. *)
Definition changesNothing (a : action) (s : State) : Prop :=
  match a with
  | SET_TIME player _ => player <> 1 /\ player <> 2
  | INCREMENT_MOVES player => player <> 1 /\ player <> 2
  | SELECT_PLAYER playerNum _ => playerNum <> 1 /\ playerNum <> 2
  | DECREMENT_TIME player =>
      (player <> 1 /\ player <> 2) \/
      (player = 1 /\ (player1Time s <= 0)%Q) \/
      (player = 2 /\ (player2Time s <= 0)%Q)
  | UPDATE_SETTING (Set_notOwned _) => True
  | UNKNOWN_ACTION _ => True
  | ADD_ACHIEVEMENT achievementId => achievementId ∈ unlockedAchievements s
  | _ => False
  end.

(** The scheduler is armed exactly while the clock is not paused. *)
Record Poised (w : World) : Prop := {
  poised_wired : wired w;
  poised_armed : timerInterval w = None <-> isPaused (state w) = true
}.
(** ** Stepping through a computation *)

Lemma exec_bind_gets {A B} (f : World -> A) (k : A -> M B) (w : World) :
  exec (bind (gets f) k) w = exec (k (f w)) w.
Proof. reflexivity. Qed.

Lemma exec_bind_modify {B} (f : World -> World) (k : unit -> M B) (w : World) :
  exec (bind (modify f) k) w = exec (k tt) (f w).
Proof. reflexivity. Qed.

Lemma exec_bind_modifyState {B} (f : State -> State) (k : unit -> M B)
    (w : World) :
  exec (bind (modifyState f) k) w = exec (k tt) (set_state (f (state w)) w).
Proof. reflexivity. Qed.

Lemma exec_bind_record {B} (e : traceEntry) (k : unit -> M B) (w : World) :
  exec (bind (record e) k) w = exec (k tt) (set_trace (trace w ++ [e]) w).
Proof. reflexivity. Qed.

Lemma exec_bind_ret {A B} (a : A) (k : A -> M B) (w : World) :
  exec (bind (ret a) k) w = exec (k a) w.
Proof. reflexivity. Qed.

Lemma exec_bind_ok {A B} (m : M A) (k : A -> M B) (a : A) (w : World) :
  fst (m w) = Ok a -> exec (bind m k) w = exec (k a) (exec m w).
Proof.
  unfold exec, bind. destruct (m w) as [[a'|e] w']; simpl; [|discriminate].
  intros [= ->]. reflexivity.
Qed.

Lemma exec_bind_assoc {A B C} (m : M A) (f : A -> M B) (g : B -> M C)
    (w : World) :
  exec (bind (bind m f) g) w = exec (bind m (fun a => bind (f a) g)) w.
Proof. unfold exec, bind. destruct (m w) as [[a|e] w']; reflexivity. Qed.

(** Projections of updated records. *)
Ltac tidy :=
  cbn [
      state subscribers listeners debugMode timerInterval
      engineInitialized thresholdFlags matchStartTime lastMoveTime
      statsInitialized now handlesIssued closuresCreated console
      allTimeUpdates trace set_state set_subscribers set_listeners
      set_debugMode set_timerInterval set_engineInitialized
      set_thresholdFlags set_matchStartTime set_lastMoveTime
      set_statsInitialized set_now set_handlesIssued
      set_closuresCreated set_console set_allTimeUpdates set_trace
      player1Time player2Time player1Moves player2Moves activePlayer
      isPaused defaultTime selectedPlayer1 selectedPlayer2 ambientMode
      audioEnabled particlesEnabled endgameBoostEnabled player1Palette
      player2Palette currentMatchStats unlockedAchievements totalXP
      level set_player1Time set_player2Time set_player1Moves
      set_player2Moves set_activePlayer set_isPaused set_defaultTime
      set_selectedPlayer1 set_selectedPlayer2 set_ambientMode
      set_audioEnabled set_particlesEnabled set_endgameBoostEnabled
      set_player1Palette set_player2Palette set_currentMatchStats
      set_unlockedAchievements set_totalXP set_level
  ] in *.

(** ** Scenarios *)

(** C4: both players seeded with 5 seconds, player 1 starts; after four
    ticks player 1 has one second and no victory was published; the fifth
    tick leaves player 1 at 0, publishes [game:victory] with winner 2,
    loser 1 and 5 seconds left to the winner, and clears the active
    player. *)
Theorem flag_falls_after_five_ticks (slack : nat) (t0 : Z) :
  let call := core slack in
  let started :=
    performAll call [TimeSelected 5; PlayerClicked 1] (booted slack t0) in
  let w4 := performAll call (replicate 4 SchedulerFires) started in
  let w5 := exec (perform call SchedulerFires) w4 in
  published "game:started" (trace started) = [PPlayer 1] /\
  player1Time (state started) = 5%Q /\
  player2Time (state started) = 5%Q /\
  activePlayer (state started) = 1 /\
  player1Time (state w4) = 1%Q /\
  published "game:victory" (trace w4) = [] /\
  player1Time (state w5) = 0%Q /\
  published "game:victory" (trace w5) = [PVictory 2 1 (Some 5%Q)] /\
  activePlayer (state w5) = 0.
Proof.
  intros. vm_compute. repeat split; reflexivity.
Qed.

(** C5: both players seeded with 300 seconds, player 1 starts, three ticks
    pass, player 1 clicks: [game:player-switched] is published once, from 1
    to 2 with move number 1; player 1 has made one move and has 297
    seconds; player 2 still has 300. *)
Theorem switch_after_three_seconds (slack : nat) (t0 : Z) :
  let call := core slack in
  let before :=
    performAll call
      [TimeSelected 300; PlayerClicked 1;
       SchedulerFires; SchedulerFires; SchedulerFires]
      (booted slack t0) in
  let after := exec (perform call (PlayerClicked 1)) before in
  activePlayer (state before) = 1 /\
  published "game:player-switched" (trace before) = [] /\
  player2Time (state before) = 300%Q /\
  published "game:player-switched" (trace after) = [PSwitched 1 2 (Some 1)] /\
  player1Moves (state after) = 1 /\
  player2Moves (state after) = 0 /\
  player1Time (state after) = 297%Q /\
  player2Time (state after) = 300%Q /\
  activePlayer (state after) = 2.
Proof.
  intros. vm_compute. repeat split; reflexivity.
Qed.

(** ** Requests that are ignored *)

(** C7: while a player is active, a turn request from any other player
    returns normally and leaves the whole world as it was: no field of
    the state, no timer, no flag, no log line changes. *)
Theorem click_of_waiting_player_ignored (call : fn -> args -> M unit)
    (w : World) (player : Z) :
  activePlayer (state w) <> 0 ->
  player <> activePlayer (state w) ->
  Engine.handlePlayerClick call player w = (Ok tt, w).
Proof.
  intros Hactive Hother.
  unfold Engine.handlePlayerClick, Store.get, Rules.canPlayerSwitch, bind, gets.
  destruct (Z.eqb_spec (activePlayer (state w)) 0) as [|_]; [done|].
  destruct (Z.eqb_spec (activePlayer (state w)) player) as [|_]; [congruence|].
  reflexivity.
Qed.

Lemma click_of_waiting_player_ignored_witness :
  activePlayer (state midgame) <> 0 /\
  2 <> activePlayer (state midgame) /\
  Engine.handlePlayerClick (core 0) 2 midgame = (Ok tt, midgame).
Proof.
  assert (H1 : activePlayer (state midgame) <> 0) by (vm_compute; discriminate).
  assert (H2 : 2 <> activePlayer (state midgame)) by (vm_compute; discriminate).
  split; [exact H1|]. split; [exact H2|].
  exact (click_of_waiting_player_ignored (core 0) midgame 2 H1 H2).
Defined.

(** C10: while the game is paused with a player active, a turn request
    from any player, the active one included, returns normally and leaves
    the whole world as it was. *)
Theorem click_while_paused_ignored (call : fn -> args -> M unit)
    (w : World) (player : Z) :
  isPaused (state w) = true ->
  activePlayer (state w) <> 0 ->
  Engine.handlePlayerClick call player w = (Ok tt, w).
Proof.
  intros Hpaused Hactive.
  unfold Engine.handlePlayerClick, Store.get, Rules.canPlayerSwitch, bind, gets.
  rewrite Hpaused.
  destruct (Z.eqb_spec (activePlayer (state w)) 0) as [|_]; [done|].
  destruct (activePlayer (state w) =? player); reflexivity.
Qed.

Lemma click_while_paused_ignored_witness :
  isPaused (state pausedGame) = true /\
  activePlayer (state pausedGame) <> 0 /\
  Engine.handlePlayerClick (core 0) 1 pausedGame = (Ok tt, pausedGame).
Proof.
  assert (H1 : isPaused (state pausedGame) = true) by (vm_compute; reflexivity).
  assert (H2 : activePlayer (state pausedGame) <> 0)
    by (vm_compute; discriminate).
  split; [exact H1|]. split; [exact H2|].
  exact (click_while_paused_ignored (core 0) pausedGame 1 H1 H2).
Defined.

(** ** Fault isolation *)


Section FaultIsolation.
Variable call : fn -> args -> M unit.

Lemma forEach_returns (body : fn -> M unit) (cbs : list fn) (w : World) :
  (forall cb w', fst (body cb w') = Ok tt) ->
  fst (forEach cbs body w) = Ok tt.
Proof.
  intros Hbody. revert w.
  induction cbs as [|cb rest IH]; intros w; simpl; [reflexivity|].
  unfold bind. specialize (Hbody cb w).
  destruct (body cb w) as [[[]|e] w']; simpl in Hbody; [apply IH|discriminate].
Qed.

Lemma guarded_returns (m : M unit) (text : string) (w : World) :
  fst (tryCatch m (consoleError text) w) = Ok tt.
Proof. unfold tryCatch. destruct (m w) as [[[]|e] w']; reflexivity. Qed.


Lemma notify_returns (key : string) (n o : fieldValue) (w : World) :
  fst (Store.notify call key n o w) = Ok tt.
Proof.
  unfold Store.notify, bind, gets.
  destruct (subscribers w !! key) as [cbs|]; [|reflexivity].
  apply forEach_returns; intros; apply guarded_returns.
Qed.

Lemma announce_returns (key : string) (prev : State) (w : World) :
  fst (Store.announce call key prev w) = Ok tt.
Proof. unfold Store.announce, bind, gets. apply notify_returns. Qed.

Lemma bind_returns {A} (m : M A) (k : A -> M unit) (w : World) :
  (exists a, fst (m w) = Ok a) -> (forall a w', fst (k a w') = Ok tt) ->
  fst (bind m k w) = Ok tt.
Proof.
  intros [a Hm] Hk. unfold bind. destruct (m w) as [[a'|e] w']; simpl in Hm; [apply Hk|discriminate].
Qed.

Lemma seq_returns (m k : M unit) (w : World) :
  (forall w', fst (m w') = Ok tt) -> (forall w', fst (k w') = Ok tt) ->
  fst (bind m (fun _ => k) w) = Ok tt.
Proof. intros Hm Hk. apply bind_returns; [exists tt; apply Hm|intros; apply Hk]. Qed.


Hypothesis call_extends :
  forall f a w, trace w `prefix_of` trace (exec (call f a) w).



End FaultIsolation.


(** ** The once-subscription *)

(** C9: a callback registered with [once] is called twice by one publish
    when it publishes the same topic itself, and a callback that throws is
    never removed: three publishes call it three times. *)
Theorem once_callback_called_again :
  timesCalled (UserFn 0)
    (trace (exec (Events.once "news" (UserFn 0) ;;
                  Events.emit (invoke echo 6) "news" (PText "again"))
              (pristine 0))) = 2%nat /\
  timesCalled (UserFn 1)
    (trace (exec (Events.once "news" (UserFn 1) ;;
                  Events.emit (invoke echo 6) "news" (PText "one") ;;
                  Events.emit (invoke echo 6) "news" (PText "two") ;;
                  Events.emit (invoke echo 6) "news" (PText "three"))
              (pristine 0))) = 3%nat.
Proof. vm_compute. split; reflexivity. Qed.

(** ** No negative time is ever shown *)

Lemma wholeSeconds_nonneg (q : Q) : wholeSeconds q -> (0 <= q)%Q.
Proof.
  intros (n & Hn & Hq). rewrite Hq. change 0%Q with (inject_Z 0).
  rewrite <- Zle_Qle. exact Hn.
Qed.

Lemma wholeSeconds_pred (q : Q) :
  wholeSeconds q -> Qle_bool q 0 = false -> wholeSeconds (q - 1)%Q.
Proof.
  intros (n & Hn & Hq) Hpos. exists (n - 1).
  assert (0 < n).
  { destruct (Z_le_gt_dec n 0) as [Hle|Hgt]; [exfalso|lia].
    assert (Qle_bool q 0 = true); [|congruence].
    apply Qle_bool_iff. rewrite Hq. change 0%Q with (inject_Z 0).
    rewrite <- Zle_Qle. exact Hle. }
  split; [lia|]. rewrite Hq. unfold Z.sub.
  rewrite inject_Z_plus, inject_Z_opp. reflexivity.
Qed.

Lemma wholeTimes_timesOk (s : State) : wholeTimes s -> timesOk s.
Proof.
  intros (H1 & H2 & _). split; apply wholeSeconds_nonneg; assumption.
Qed.

Lemma wholeClocks_neverNegative (w : World) : wholeClocks w -> neverNegative w.
Proof.
  intros [Hs Htr]. split; [apply wholeTimes_timesOk, Hs|].
  intros e s Hin Hshown. apply wholeTimes_timesOk. eauto.
Qed.

Lemma wholeClocks_update (w w' : World) :
  wholeClocks w -> trace w' = trace w -> wholeTimes (state w') ->
  wholeClocks w'.
Proof. intros [_ Htr] Heq Hs. split; [exact Hs|]. rewrite Heq. exact Htr. Qed.

Lemma wholeClocks_record (e : traceEntry) (w : World) :
  wholeClocks w -> (forall s, shown e = Some s -> s = state w) ->
  wholeClocks (set_trace (trace w ++ [e]) w).
Proof.
  intros [Hs Htr] He. split; [exact Hs|]. simpl.
  intros e' s [Hin|Hin]%elem_of_app Hshown.
  - eauto.
  - apply list_elem_of_singleton in Hin. subst e'.
    rewrite (He _ Hshown). exact Hs.
Qed.

Section NeverNegative.
Variable call : fn -> args -> M unit.
Hypothesis call_sound :
  forall f a w, wholeClocks w -> wholeClocks (exec (call f a) w).

Lemma nn_bind {A B} (m : M A) (k : A -> M B) (w : World) :
  wholeClocks (exec m w) ->
  (forall a w', wholeClocks w' -> wholeClocks (exec (k a) w')) ->
  wholeClocks (exec (bind m k) w).
Proof.
  unfold exec, bind. destruct (m w) as [[a|e] w']; simpl; auto.
Qed.

Lemma nn_callFn (f : fn) (a : args) (text : string) (w : World) :
  wholeClocks w ->
  wholeClocks (exec (tryCatch (callFn call f a) (consoleError text)) w).
Proof.
  intros Hw. unfold exec, tryCatch, callFn, bind, gets, record, modify. simpl.
  set (w0 := set_trace _ w).
  assert (H0 : wholeClocks w0).
  { apply wholeClocks_record; [exact Hw|]. simpl. congruence. }
  apply call_sound with (f := f) (a := a) in H0. unfold exec in H0.
  destruct (call f a w0) as [[[]|e] w1]; simpl in *; exact H0.
Qed.

Lemma nn_forEach (a : args) (text : string) (cbs : list fn) (w : World) :
  wholeClocks w ->
  wholeClocks
    (exec (forEach cbs (fun callback =>
             tryCatch (callFn call callback a) (consoleError text))) w).
Proof.
  revert w. induction cbs as [|cb rest IH]; intros w Hw; [exact Hw|].
  simpl. apply nn_bind; [apply nn_callFn; exact Hw|].
  intros _ w' Hw'. apply IH, Hw'.
Qed.

Lemma nn_notify (key : string) (n o : fieldValue) (w : World) :
  wholeClocks w -> wholeClocks (exec (Store.notify call key n o) w).
Proof.
  intros Hw. unfold Store.notify. rewrite exec_bind_gets.
  destruct (subscribers w !! key); [apply nn_forEach|]; exact Hw.
Qed.

Lemma nn_announce (key : string) (prev : State) (w : World) :
  wholeClocks w -> wholeClocks (exec (Store.announce call key prev) w).
Proof.
  intros Hw. unfold Store.announce. rewrite exec_bind_gets.
  apply nn_notify, Hw.
Qed.

Lemma nn_dispatch (a : action) (w : World) :
  wholeClocks w -> seedsWholeSeconds a ->
  wholeClocks (exec (Store.dispatch call a) w).
Proof.
  intros Hw Ha. unfold Store.dispatch. rewrite exec_bind_gets.
  apply nn_bind.
  2:{ intros _ w' Hw'. rewrite exec_bind_gets, exec_bind_gets, exec_bind_record.
      apply nn_notify. apply wholeClocks_record; [exact Hw'|].
      simpl. congruence. }
  assert (Hs := proj1 Hw). destruct Hs as (H1 & H2 & H3).
  destruct a; simpl in Ha;
    repeat (tidy; match goal with
    | |- wholeClocks (exec (if ?b then _ else _) _) => destruct b eqn:?
    | |- wholeClocks (exec (match ?o with Some _ => _ | None => _ end) _) => destruct o eqn:?
    | |- wholeClocks (exec (bind (when ?b _) _) _) => destruct b eqn:?; unfold when
    | |- wholeClocks (exec (ret _) _) => unfold exec, ret; cbn [snd]
    | |- wholeClocks (exec (consoleWarn _) _) => unfold exec, consoleWarn, modify; cbn [snd]
    | |- wholeClocks (exec (bind (bind _ _) _) _) => rewrite exec_bind_assoc
    | |- wholeClocks (exec (bind (ret _) _) _) => rewrite exec_bind_ret
    | |- wholeClocks (exec (bind (gets _) _) _) => rewrite exec_bind_gets
    | |- wholeClocks (exec (bind (modifyState _) _) _) => rewrite exec_bind_modifyState
    | |- wholeClocks (exec (Store.announce _ _ _) _) => apply nn_announce
    | |- wholeClocks (exec (Store.notify _ _ _ _) _) => apply nn_notify
    | |- wholeClocks (exec (bind (Store.announce _ _ _) _) _) => apply nn_bind; [apply nn_announce|intros _ ? ?]
    end).
  all: try assumption.
  all: (eapply wholeClocks_update; [exact Hw|reflexivity|]).
  all: unfold wholeTimes; simpl.
  all: repeat split; try assumption.
  all: try (apply wholeSeconds_pred; [assumption|];
            match goal with
            | H : _ && negb _ = true |- _ =>
                apply andb_true_iff in H as [_ H];
                apply negb_true_iff in H; exact H
            end).
  all: destruct s; simpl in *; repeat split; assumption.
Qed.

(** C1, amended: when every number a command writes into a time is a
    whole number of seconds, not negative, and the callbacks keep to that
    as well, the times stay whole, and every state shown to a subscriber
    and every state left by a command has both players' times at 0 or
    above; [DECREMENT_TIME] is such a command whatever the time. *)
Theorem times_never_negative (cmds : list action) (w : World) :
  wholeClocks w ->
  Forall seedsWholeSeconds cmds ->
  wholeClocks (dispatchAll call cmds w) /\
  neverNegative (dispatchAll call cmds w).
Proof.
  intros Hw Hcmds.
  assert (H : wholeClocks (dispatchAll call cmds w)).
  { revert w Hw.
    induction Hcmds as [|a rest Ha _ IH]; intros w Hw; [exact Hw|].
    simpl. apply IH, nn_dispatch; assumption. }
  split; [exact H|apply wholeClocks_neverNegative, H].
Qed.

End NeverNegative.

Lemma times_never_negative_witness :
  wholeClocks
    (dispatchAll bystander
       [SET_TIME 1 2; SET_ACTIVE_PLAYER 1; DECREMENT_TIME 1; DECREMENT_TIME 1;
        DECREMENT_TIME 1; DECREMENT_TIME 1; RESET_GAME]
       watched) /\
  neverNegative
    (dispatchAll bystander
       [SET_TIME 1 2; SET_ACTIVE_PLAYER 1; DECREMENT_TIME 1; DECREMENT_TIME 1;
        DECREMENT_TIME 1; DECREMENT_TIME 1; RESET_GAME]
       watched).
Proof.
  apply (times_never_negative bystander).
  - intros f a w Hw. exact Hw.
  - split.
    + split; [|split]; exists 300; (split; [lia|reflexivity]).
    + intros e s Hin. vm_compute in Hin. inversion Hin.
  - repeat constructor; simpl; try exact I.
    exists 2. split; [lia|reflexivity].
Defined.

(** C1 as stated fails twice over.  [SET_TIME] stores the number it is
    given, and the subscriber of [player1Time] is shown -5.  And no
    negative number need be written: a time of half a second passes the
    guard of [DECREMENT_TIME] and the subscriber is shown minus a half. *)
Lemma negative_time_observed :
  (~ neverNegative (dispatchAll bystander [SET_TIME 1 (-5)] watched) /\
   exists s,
     Invoked (UserFn 0) (Change (VTime (-5)) (VTime 300)) s
       ∈ trace (dispatchAll bystander [SET_TIME 1 (-5)] watched) /\
     (player1Time s < 0)%Q) /\
  (Rules.isValidTime (1 # 2) = true /\
   ~ neverNegative
       (dispatchAll bystander [SET_TIME 1 (1 # 2); DECREMENT_TIME 1] watched) /\
   exists s,
     Invoked (UserFn 0) (Change (VTime (-1 # 2)) (VTime (1 # 2))) s
       ∈ trace
           (dispatchAll bystander [SET_TIME 1 (1 # 2); DECREMENT_TIME 1]
              watched) /\
     (player1Time s < 0)%Q).
Proof.
  split; [split|split; [reflexivity|split]].
  - intros [(H & _) _]. vm_compute in H. apply H. reflexivity.
  - vm_compute. eexists. split; [constructor|reflexivity].
  - intros [(H & _) _]. vm_compute in H. apply H. reflexivity.
  - vm_compute. eexists.
    split;
      [repeat first [apply list_elem_of_here|apply list_elem_of_further]
      |reflexivity].
Qed.

(** ** The engine in a wired world *)

Lemma booted_wired (slack : nat) (t0 : Z) : wired (booted slack t0).
Proof. split; reflexivity. Qed.

Lemma notify_quiet (call : fn -> args -> M unit) (key : string)
    (n o : fieldValue) (w : World) :
  subscribers w = ∅ -> Store.notify call key n o w = (Ok tt, w).
Proof.
  intros Hs. unfold Store.notify, bind, gets. rewrite Hs, lookup_empty.
  reflexivity.
Qed.

Lemma dispatch_quiet (call : fn -> args -> M unit) (a : action) (w : World) :
  subscribers w = ∅ -> Store.dispatch call a w = (Ok tt, commit a w).
Proof.
  intros Hs.
  assert (Hn : forall key n o w', subscribers w' = subscribers w ->
             Store.notify call key n o w' = (Ok tt, w')).
  { intros. apply notify_quiet. congruence. }
  unfold Store.dispatch, commit, Store.announce, bind, gets, modifyState,
    modify, record, when, ret, consoleWarn.
  destruct a; simpl;
    repeat match goal with
    | |- context [if ?c then _ else _] => destruct c
    | |- context [match Store.ownedKey ?s with _ => _ end] => destruct s; simpl
    end; simpl; rewrite ?Hn by reflexivity; simpl; rewrite ?Hn by reflexivity;
    try reflexivity.
Qed.

Lemma emit_quiet (call : fn -> args -> M unit) (eventName : string)
    (data : payload) (w : World) :
  listeners w !! eventName = None -> debugMode w = false ->
  Events.emit call eventName data w = (Ok tt, announced eventName data w).
Proof.
  intros Hl Hd. unfold Events.emit, bind, record, modify, gets, when, ret.
  simpl. rewrite Hd. simpl. rewrite Hl. reflexivity.
Qed.

Lemma emit_single (call : fn -> args -> M unit) (eventName : string)
    (data : payload) (f : fn) (w : World) :
  listeners w !! eventName = Some [f] -> debugMode w = false ->
  Events.emit call eventName data w =
  (Ok tt,
   settled eventName
     (fst (call f (Data data) (handed eventName data f w)))
     (snd (call f (Data data) (handed eventName data f w)))).
Proof.
  intros Hl Hd.
  unfold Events.emit, bind, record, modify, gets, when, ret.
  simpl. rewrite Hd. simpl. rewrite Hl. simpl.
  unfold bind, tryCatch, callFn, bind, gets, record, modify, handed, ret.
  simpl.
  rewrite <- app_assoc. simpl.
  destruct (call f (Data data) _) as [[[]|e] w']; reflexivity.
Qed.

(** *** Rules of the weakest precondition *)

Lemma wp_exec {A} (m : M A) (P : World -> Prop) (w : World) :
  wp m (fun _ w' => P w') w -> P (exec m w).
Proof. exact id. Qed.

Lemma wp_ret {A} (a : A) (Q : result A -> World -> Prop) (w : World) :
  Q (Ok a) w -> wp (ret a) Q w.
Proof. exact id. Qed.

Lemma wp_throw {A} (e : string) (Q : result A -> World -> Prop) (w : World) :
  Q (Thrown e) w -> wp (throw e) Q w.
Proof. exact id. Qed.

Lemma wp_gets {A} (f : World -> A) (Q : result A -> World -> Prop)
    (w : World) :
  Q (Ok (f w)) w -> wp (gets f) Q w.
Proof. exact id. Qed.

Lemma wp_modify (f : World -> World) (Q : result unit -> World -> Prop)
    (w : World) :
  Q (Ok tt) (f w) -> wp (modify f) Q w.
Proof. exact id. Qed.

Lemma wp_bind {A B} (m : M A) (k : A -> M B)
    (Q : result B -> World -> Prop) (w : World) :
  wp m (fun r w' =>
          match r with
          | Ok a => wp (k a) Q w'
          | Thrown e => Q (Thrown e) w'
          end) w ->
  wp (bind m k) Q w.
Proof. unfold wp, bind. destruct (m w) as [[a|e] w']; exact id. Qed.

Lemma wp_tryCatch (m : M unit) (h : string -> M unit)
    (Q : result unit -> World -> Prop) (w : World) :
  wp m (fun r w' =>
          match r with
          | Ok _ => Q (Ok tt) w'
          | Thrown e => wp (h e) Q w'
          end) w ->
  wp (tryCatch m h) Q w.
Proof. unfold wp, tryCatch. destruct (m w) as [[a|e] w']; exact id. Qed.

Lemma wp_dispatch (call : fn -> args -> M unit) (a : action)
    (Q : result unit -> World -> Prop) (w : World) :
  subscribers w = ∅ -> Q (Ok tt) (commit a w) ->
  wp (Store.dispatch call a) Q w.
Proof. intros Hs HQ. unfold wp. rewrite dispatch_quiet by exact Hs. exact HQ. Qed.

Lemma wp_emit_quiet (call : fn -> args -> M unit) (eventName : string)
    (data : payload) (Q : result unit -> World -> Prop) (w : World) :
  listeners w !! eventName = None -> debugMode w = false ->
  Q (Ok tt) (announced eventName data w) ->
  wp (Events.emit call eventName data) Q w.
Proof.
  intros Hl Hd HQ. unfold wp. rewrite emit_quiet by assumption. exact HQ.
Qed.

Lemma wp_emit_single (call : fn -> args -> M unit) (eventName : string)
    (data : payload) (f : fn) (Q : result unit -> World -> Prop) (w : World) :
  listeners w !! eventName = Some [f] -> debugMode w = false ->
  wp (call f (Data data))
     (fun r w' => Q (Ok tt) (settled eventName r w'))
     (handed eventName data f w) ->
  wp (Events.emit call eventName data) Q w.
Proof.
  intros Hl Hd HQ. unfold wp.
  rewrite (emit_single call eventName data f) by assumption. exact HQ.
Qed.

(** *** Stepping through the source in a wired world *)

Ltac norm :=
  cbn [state subscribers listeners debugMode timerInterval engineInitialized
      thresholdFlags matchStartTime lastMoveTime statsInitialized now
      handlesIssued closuresCreated console allTimeUpdates trace set_state
      set_subscribers set_listeners set_debugMode set_timerInterval
      set_engineInitialized set_thresholdFlags set_matchStartTime
      set_lastMoveTime set_statsInitialized set_now set_handlesIssued
      set_closuresCreated set_console set_allTimeUpdates set_trace
      player1Time player2Time player1Moves player2Moves activePlayer isPaused
      defaultTime selectedPlayer1 selectedPlayer2 ambientMode audioEnabled
      particlesEnabled endgameBoostEnabled player1Palette player2Palette
      currentMatchStats unlockedAchievements totalXP level set_player1Time
      set_player2Time set_player1Moves set_player2Moves set_activePlayer
      set_isPaused set_defaultTime set_selectedPlayer1 set_selectedPlayer2
      set_ambientMode set_audioEnabled set_particlesEnabled
      set_endgameBoostEnabled set_player1Palette set_player2Palette
      set_currentMatchStats set_unlockedAchievements set_totalXP set_level
      startTime moves avgMoveTime longestThink fastestMove
      player1 player2 low critical noFlags
      patch_startTime patch_moves patch_avgMoveTime patch_longestThink
      patch_fastestMove Store.spread default
      commit announced handed settled effect
      CONFIG.LOW_TIME_THRESHOLD CONFIG.CRITICAL_THRESHOLD
      negb andb orb fst snd];
  unfold Rules.canPlayerSwitch, Rules.isValidTime, Engine.playerTime,
    Engine.playerMoves, Engine.flagsOf, Engine.setFlagsOf.

Ltac name_cont :=
  lazymatch goal with
  | |- wp ?m ?K ?w => let K' := fresh "K" in set (K' := K)
  end.

Ltac head t :=
  lazymatch t with
  | ?f _ => head f
  | _ => t
  end.

Ltac closed_bool c :=
  let v := eval vm_compute in c in
  lazymatch v with
  | true => change c with true
  | false => change c with false
  end.

Ltac fix_eqb x y :=
  first
    [ closed_bool (x =? y)
    | replace (x =? y) with true by (symmetry; apply Z.eqb_eq; lia)
    | replace (x =? y) with false by (symmetry; apply Z.eqb_neq; lia)
    | let E := fresh "E" in
      destruct (Z.eq_dec x y) as [E|E];
      [ replace (x =? y) with true by (symmetry; apply Z.eqb_eq; exact E)
      | replace (x =? y) with false by (symmetry; apply Z.eqb_neq; exact E) ] ].

Ltac fix_ltb x y :=
  first
    [ closed_bool (x <? y)
    | replace (x <? y) with true by (symmetry; apply Z.ltb_lt; lia)
    | replace (x <? y) with false by (symmetry; apply Z.ltb_ge; lia)
    | let E := fresh "E" in
      destruct (Z_lt_ge_dec x y) as [E|E];
      [ replace (x <? y) with true by (symmetry; apply Z.ltb_lt; exact E)
      | replace (x <? y) with false by (symmetry; apply Z.ltb_ge; lia) ] ].

Ltac fix_leb x y :=
  first
    [ closed_bool (x <=? y)
    | replace (x <=? y) with true by (symmetry; apply Z.leb_le; lia)
    | replace (x <=? y) with false by (symmetry; apply Z.leb_gt; lia)
    | let E := fresh "E" in
      destruct (Z_le_gt_dec x y) as [E|E];
      [ replace (x <=? y) with true by (symmetry; apply Z.leb_le; exact E)
      | replace (x <=? y) with false by (symmetry; apply Z.leb_gt; lia) ] ].

Lemma bool_cases (b : bool) : {b = true} + {b = false}.
Proof. destruct b; auto. Qed.

Lemma option_cases {A} (o : option A) : {x | o = Some x} + {o = None}.
Proof. destruct o; eauto. Qed.

Ltac fix_atom b :=
  first
    [ match goal with H : b = _ |- _ => rewrite H end
    | lazymatch type of b with
      | bool =>
          let E := fresh "E" in
          destruct (bool_cases b) as [E|E]; rewrite E
      | option _ =>
          let E := fresh "E" in
          let x := fresh "x" in
          destruct (option_cases b) as [[x E]|E]; rewrite E
      end ].

(** A comparison of times: decided by the comparisons met so far where
    they decide it, split otherwise. *)
Ltac time_facts :=
  repeat
    match goal with
    | H : Qle_bool _ _ = true |- _ => apply Qle_bool_iff in H
    | H : Qle_bool _ _ = false |- _ =>
        apply not_true_iff_false in H; rewrite Qle_bool_iff in H
    | H : Qeq_bool _ _ = true |- _ => apply Qeq_bool_iff in H
    | H : Qeq_bool _ _ = false |- _ =>
        apply not_true_iff_false in H; rewrite Qeq_bool_iff in H
    end.

Ltac time_true :=
  symmetry; first [apply Qle_bool_iff | apply Qeq_bool_iff]; time_facts;
  unfold CONFIG.LOW_TIME_THRESHOLD, CONFIG.CRITICAL_THRESHOLD in *; lra.

Ltac time_false :=
  symmetry; apply not_true_is_false;
  rewrite ?Qle_bool_iff, ?Qeq_bool_iff; time_facts;
  unfold CONFIG.LOW_TIME_THRESHOLD, CONFIG.CRITICAL_THRESHOLD in *; lra.

Ltac fix_time b :=
  first
    [ closed_bool b
    | match goal with H : b = _ |- _ => rewrite H end
    | lazymatch goal with
      | H : Qle_bool _ _ = _ |- _ => idtac
      | H : Qeq_bool _ _ = _ |- _ => idtac
      | H : Qle _ _ |- _ => idtac
      | H : Qlt _ _ |- _ => idtac
      end;
      first
        [ replace b with true by time_true
        | replace b with false by time_false ]
    | let E := fresh "E" in
      destruct (bool_cases b) as [E|E]; rewrite E ].

Ltac resolve s :=
  lazymatch s with
  | negb ?b => resolve b
  | andb ?a _ => resolve a
  | orb ?a _ => resolve a
  | ?x =? ?y => fix_eqb x y
  | ?x <? ?y => fix_ltb x y
  | ?x <=? ?y => fix_leb x y
  | Qle_bool _ _ => fix_time s
  | Qeq_bool _ _ => fix_time s
  | (if ?c then _ else _) => resolve c
  | match ?o with Some _ => _ | None => _ end => resolve o
  | _ => fix_atom s
  end.

(** Conditions on whole numbers that have come to light. *)
Ltac settle :=
  repeat
    match goal with
    | |- context [if ?c then _ else _] =>
        lazymatch c with
        | context [Z.eqb _ _] => idtac
        | context [Z.ltb _ _] => idtac
        | context [Z.leb _ _] => idtac
        | context [Qle_bool _ _] => idtac
        | context [Qeq_bool _ _] => idtac
        end;
        resolve c; norm
    end.

Ltac use_cont :=
  repeat
    (lazymatch goal with
     | |- ?K _ _ => is_var K; unfold K; clear K
     end;
     lazy beta iota; norm);
  settle.

Ltac side :=
  norm;
  lazymatch goal with
  | |- listeners ?w !! _ = _ =>
      match goal with
      | H : listeners w = wiring |- _ => rewrite H
      end;
      reflexivity
  | |- _ => assumption
  end.

Ltac wp_emit :=
  first
    [ apply wp_emit_quiet; [side | side | use_cont]
    | eapply wp_emit_single; [side | side | name_cont] ].

Ltac wp_step :=
  lazymatch goal with
  | |- wp ?m ?Q ?w =>
      lazymatch m with
      | bind _ _ => apply wp_bind; name_cont
      | ret _ => apply wp_ret; use_cont
      | throw _ => apply wp_throw; use_cont
      | gets _ => apply wp_gets; use_cont
      | modify _ => apply wp_modify; use_cont
      | tryCatch _ _ => apply wp_tryCatch; name_cont
      | Store.dispatch _ _ => apply wp_dispatch; [side | use_cont]
      | Events.emit _ _ _ => wp_emit
      | (if _ then _ else _) =>
          norm;
          lazymatch goal with
          | |- wp (if ?c then _ else _) _ _ => resolve c; norm
          | |- _ => idtac
          end
      | match _ with Some _ => _ | None => _ end =>
          norm;
          lazymatch goal with
          | |- wp (match ?o with Some _ => _ | None => _ end) _ _ =>
              resolve o; norm
          | |- _ => idtac
          end
      | invoke ?u (S ?n) ?f ?a =>
          change (invoke u (S n) f a) with (bodyOf u (invoke u n) f a);
          unfold bodyOf at 1; lazy beta iota
      | _ => let h := head m in unfold h at 1; lazy beta iota zeta
      end
  end.

Ltac wp_run := repeat wp_step.

(** ** The standing of the core is kept *)

Lemma steady_intro (w w' : World) (ext : list traceEntry) :
  Steady w ->
  listeners w' = listeners w -> subscribers w' = subscribers w ->
  debugMode w' = debugMode w ->
  trace w' = trace w ++ ext -> Forall calm ext ->
  (activePlayer (state w') = 0 \/ activePlayer (state w') = 1 \/
   activePlayer (state w') = 2) ->
  (activePlayer (state w') = 0 -> isPaused (state w') = true) ->
  Steady w'.
Proof.
  intros [[Hl Hs Hd] Hp Hi Ht] Hl' Hs' Hd' Ht' Hext Hp' Hi'.
  split; [split; congruence|assumption|assumption|].
  rewrite Ht'. apply Forall_app. split; assumption.
Qed.

Ltac calm_entry :=
  unfold calm, Engine.running; norm;
  first
    [ exact I
    | let H := fresh "H" in
      intro H;
      first
        [ reflexivity
        | exfalso; lia
        | match goal with
          | Hi : _ -> isPaused _ = true |- _ => rewrite (Hi H); reflexivity
          end ] ].

Ltac steady_leaf :=
  lazymatch goal with
  | |- Forall _ _ =>
      repeat
        first
          [ apply Forall_nil_2
          | apply Forall_cons_2; [calm_entry|]
          | apply Forall_app_2 ]
  | |- _ \/ _ => lia
  | |- _ -> _ =>
      let H := fresh "H" in
      intro H;
      first
        [ reflexivity
        | exfalso; lia
        | match goal with
          | Hi : _ -> isPaused _ = true |- _ => exact (Hi H)
          end ]
  end.

Lemma steady_step (slack : nat) (o : op) (w : World) :
  Steady w -> validOp o -> Steady (exec (perform (core slack) o) w).
Proof.
  intros Hw Ho. pose proof Hw as [[Hl Hs Hd] Hp Hi Ht].
  apply (wp_exec _ Steady).
  destruct o; unfold perform, core; simpl in Ho.
  all: wp_run.
  all: try exact Hw.
  all: eapply (steady_intro w _ _ Hw); norm;
    [reflexivity|reflexivity|reflexivity
    |first [rewrite <- ?app_assoc; reflexivity
           |symmetry; apply app_nil_r]| | |].
  all: settle.
  all: steady_leaf.
Qed.

Lemma booted_steady (slack : nat) (t0 : Z) : Steady (booted slack t0).
Proof.
  split.
  - apply booted_wired.
  - left. reflexivity.
  - intros _. reflexivity.
  - repeat constructor.
Qed.

Lemma performAll_steady (slack : nat) (ops : list op) (w : World) :
  Steady w -> Forall validOp ops -> Steady (performAll (core slack) ops w).
Proof.
  intros Hw Hops. revert w Hw.
  induction Hops as [|o rest Ho _ IH]; intros w Hw; [exact Hw|].
  simpl. apply IH, steady_step; assumption.
Qed.

(** C2, amended: whatever requests with player 1 or 2 the engine serves
    from the initial state, after every Store command and after every
    request a state without an active player is not running.  The converse
    does not hold: a paused game has an active player and does not run. *)
Theorem no_clock_runs_without_owner (slack : nat) (t0 : Z) (ops : list op) :
  Forall validOp ops ->
  let w := performAll (core slack) ops (booted slack t0) in
  Forall calm (trace w) /\
  (activePlayer (state w) = 0 ->
   Engine.running (state w) (timerInterval w) = false).
Proof.
  intros Hops w.
  destruct (performAll_steady slack ops _ (booted_steady slack t0) Hops)
    as [_ _ Hi Ht].
  split; [exact Ht|].
  intros H0. unfold Engine.running. fold w in Hi. rewrite (Hi H0).
  reflexivity.
Qed.

Lemma no_clock_runs_without_owner_witness :
  let w :=
    performAll (core 0)
      [TimeSelected 5; PlayerClicked 1; SchedulerFires; PauseClicked;
       PauseClicked; PlayerClicked 1; ResetClicked]
      (booted 0 0) in
  Forall calm (trace w) /\
  (activePlayer (state w) = 0 ->
   Engine.running (state w) (timerInterval w) = false).
Proof.
  apply (no_clock_runs_without_owner 0 0).
  repeat constructor; simpl; auto.
Defined.

(** C2 as stated fails: in a paused game player 1 is active and nothing
    runs; the state between the two commands that start a game is of the
    same kind. *)
Lemma paused_game_has_owner :
  ~ (activePlayer (state pausedGame) = 0 <->
     Engine.running (state pausedGame) (timerInterval pausedGame) = false).
Proof.
  intros [_ H]. assert (H1 : activePlayer (state pausedGame) = 0) by (apply H; reflexivity).
  vm_compute in H1. discriminate.
Qed.

(** ** The log of the match *)

Lemma logged_step (slack : nat) (o : op) (w : World) :
  Steady w -> validOp o -> opensFresh o w -> Logged w ->
  Logged (exec (perform (core slack) o) w).
Proof.
  intros Hw Ho Hf HL. pose proof Hw as [[Hl Hs Hd] Hp Hi Ht].
  apply (wp_exec _ Logged).
  destruct o; unfold perform, core; simpl in Ho, Hf.
  all: wp_run.
  all: try exact HL.
  all: unfold Logged in *; norm; settle.
  all: cbn [id from_option moves emptyMatchStats];
    rewrite ?length_app, ?Nat2Z.inj_add; cbn [length]; lia.
Qed.

Lemma performAll_logged (slack : nat) (ops : list op) (w : World) :
  Steady w -> Logged w -> withinMatch (core slack) ops w ->
  Logged (performAll (core slack) ops w).
Proof.
  revert w. induction ops as [|o rest IH]; intros w Hw HL Hin; [exact HL|].
  destruct Hin as (Ho & Hf & Hrest). simpl.
  apply IH; [apply steady_step|apply logged_step|]; assumption.
Qed.

Lemma start_records_nothing (slack : nat) (w : World) (player : Z) :
  wired w -> activePlayer (state w) = 0 ->
  let w' := exec (perform (core slack) (PlayerClicked player)) w in
  player1Moves (state w') = player1Moves (state w) /\
  player2Moves (state w') = player2Moves (state w) /\
  moves (currentMatchStats (state w')) = [].
Proof.
  intros [Hl Hs Hd] H0 w'. subst w'.
  apply (wp_exec _ (fun w' =>
    player1Moves (state w') = player1Moves (state w) /\
    player2Moves (state w') = player2Moves (state w) /\
    moves (currentMatchStats (state w')) = [])).
  unfold perform, core.
  wp_run.
  all: norm; repeat split; reflexivity.
Qed.

(** C6, amended: served from the initial state, requests that stay
    within matches started from zeroed counters (the first game, and any
    game started after a reset) leave a log with exactly one entry per
    move counted; the request that starts a game changes neither counter
    and leaves the log empty. *)
Theorem log_length_is_moves_made (slack : nat) (t0 : Z) :
  (forall ops,
      withinMatch (core slack) ops (booted slack t0) ->
      Logged (performAll (core slack) ops (booted slack t0))) /\
  (forall w player,
      wired w -> activePlayer (state w) = 0 ->
      let w' := exec (perform (core slack) (PlayerClicked player)) w in
      player1Moves (state w') = player1Moves (state w) /\
      player2Moves (state w') = player2Moves (state w) /\
      moves (currentMatchStats (state w')) = []).
Proof.
  split.
  - intros ops Hin. apply performAll_logged; [apply booted_steady| |exact Hin].
    reflexivity.
  - intros w player. apply start_records_nothing.
Qed.

Lemma log_length_is_moves_made_witness :
  Logged
    (performAll (core 0)
       [TimeSelected 300; PlayerClicked 1; SchedulerFires; PlayerClicked 1;
        PlayerClicked 1; SchedulerFires; PlayerClicked 2; PauseClicked;
        PlayerClicked 1; PauseClicked; PlayerClicked 1]
       (booted 0 0)) /\
  (let w' := exec (perform (core 0) (PlayerClicked 2)) (booted 0 0) in
   player1Moves (state w') = player1Moves (state (booted 0 0)) /\
   player2Moves (state w') = player2Moves (state (booted 0 0)) /\
   moves (currentMatchStats (state w')) = []).
Proof.
  destruct (log_length_is_moves_made 0 0) as [H1 H2]. split.
  - apply H1. vm_compute. intuition (auto; discriminate).
  - apply H2; [apply booted_wired|reflexivity].
Defined.

(** C6 as stated fails: a game started after a victory without a reset
    in between.  Player 1 moves once, player 2 runs out of time, and the
    click that starts the next game empties the log while the counters
    keep the move of the finished game; every switch of the new game then
    finds the log one entry short. *)
Lemma log_shorter_than_moves_after_victory :
  let ops :=
    [TimeSelected 2; PlayerClicked 1; PlayerClicked 1; SchedulerFires;
     SchedulerFires; PlayerClicked 2] in
  let w := performAll (core 0) ops (booted 0 0) in
  let w' := exec (perform (core 0) (PlayerClicked 2)) w in
  Forall validOp ops /\
  published "game:victory" (trace w) = [PVictory 1 2 (Some 2%Q)] /\
  published "game:started" (trace w) = [PPlayer 1; PPlayer 2] /\
  length (moves (currentMatchStats (state w))) = 0%nat /\
  player1Moves (state w) + player2Moves (state w) = 1 /\
  ~ Logged w /\
  published "game:player-switched" (trace w') =
    [PSwitched 1 2 (Some 1); PSwitched 2 1 (Some 1)] /\
  length (moves (currentMatchStats (state w'))) = 1%nat /\
  player1Moves (state w') + player2Moves (state w') = 2 /\
  ~ Logged w'.
Proof.
  split; [repeat (constructor; [simpl; auto|]); constructor|].
  vm_compute. repeat split; try reflexivity; discriminate.
Qed.
(** ** Threshold alerts *)





(** *** Reading the ticks of a trace *)




















(** In that match the clock of player 1 reads 60 after its second tick
    and the clock of player 2 after its second tick: each is sent one
    alert, with that time. *)
Example alert_at_sixty :
  let w :=
    performAll (core 0)
      [TimeSelected 62; PlayerClicked 1; SchedulerFires; SchedulerFires;
       SchedulerFires; PlayerClicked 1; SchedulerFires; SchedulerFires;
       PlayerClicked 2; PauseClicked; PauseClicked; SchedulerFires]
      (booted 0 0) in
  clockRead 1 CONFIG.LOW_TIME_THRESHOLD (trace w) = true /\
  alerts "game:low-time" 1 (trace w) = [PTime 1 60] /\
  alerts "game:low-time" 2 (trace w) = [PTime 2 60] /\
  alerts "game:critical-time" 1 (trace w) = [].
Proof. vm_compute. repeat split; reflexivity. Qed.

(** * Further properties of the code *)

(** ** Registering and unregistering listeners *)

Lemma off_listeners (eventName : string) (callback : fn) (w : World) :
  listeners (exec (Events.off eventName callback) w) =
  match listeners w !! eventName with
  | Some cbs =>
      <[eventName := filter (fun cb => cb ≠ callback) cbs]> (listeners w)
  | None => listeners w
  end.
Proof.
  unfold exec, Events.off, bind, gets, modify, when, ret.
  destruct (listeners w !! eventName); [|reflexivity].
  simpl. destruct (debugMode w); reflexivity.
Qed.

Lemma on_listeners (eventName : string) (callback : fn) (w : World) :
  listeners (exec (Events.on eventName callback) w) =
  <[eventName := default [] (listeners w !! eventName) ++ [callback]]>
    (listeners w).
Proof.
  unfold exec, Events.on, bind, gets, modify, when, ret.
  simpl. destruct (debugMode w), (listeners w !! eventName); reflexivity.
Qed.

Lemma off_forgets (eventName : string) (callback : fn) (w : World)
    (cbs : list fn) :
  listeners (exec (Events.off eventName callback) w) !! eventName = Some cbs ->
  callback ∉ cbs.
Proof.
  rewrite off_listeners.
  destruct (listeners w !! eventName) as [old|] eqn:Hold.
  - rewrite lookup_insert_eq. intros [= <-].
    intros Hin%list_elem_of_filter. tauto.
  - congruence.
Qed.

(** X1: [off] takes away every registration of the callback under the
    topic, keeps the registrations of every other callback in their order,
    and leaves the other topics alone. *)
Theorem off_removes_every_registration (eventName : string) (callback : fn)
    (w : World) :
  let w' := exec (Events.off eventName callback) w in
  (forall cbs, listeners w' !! eventName = Some cbs -> callback ∉ cbs) /\
  (forall cbs, listeners w !! eventName = Some cbs ->
     listeners w' !! eventName = Some (filter (fun cb => cb ≠ callback) cbs)) /\
  (listeners w !! eventName = None -> listeners w' !! eventName = None) /\
  (forall other, other ≠ eventName ->
     listeners w' !! other = listeners w !! other).
Proof.
  intros w'. subst w'. rewrite off_listeners.
  destruct (listeners w !! eventName) as [cbs|] eqn:Hcbs.
  - split; [|split; [|split]].
    + intros cbs' H. apply (off_forgets eventName callback w).
      rewrite off_listeners, Hcbs. exact H.
    + intros cbs' [= <-]. apply lookup_insert_eq.
    + discriminate.
    + intros other Hne. apply lookup_insert_ne. congruence.
  - split; [|split; [|split]]; congruence.
Qed.

(** X2: registering a callback and unregistering it again also takes away
    the registrations it had before. *)
Theorem on_then_off_forgets_earlier_registrations (eventName : string)
    (callback : fn) (w : World) :
  listeners (exec (Events.on eventName callback ;;
                   Events.off eventName callback) w) !! eventName
  = Some (filter (fun cb => cb ≠ callback)
            (default [] (listeners w !! eventName))).
Proof.
  rewrite (exec_bind_ok _ _ tt).
  2:{ unfold Events.on, bind, gets, modify, when, ret. simpl.
      destruct (debugMode w); reflexivity. }
  rewrite off_listeners, on_listeners, lookup_insert_eq, lookup_insert_eq.
  rewrite filter_app.
  rewrite (filter_cons_False _ callback) by (intros Hn; apply Hn; reflexivity).
  rewrite filter_nil, app_nil_r. reflexivity.
Qed.

(** X3: the closure that [once] registers unregisters itself whenever the
    callback returns, whatever the callback did to the listeners; when the
    callback throws, the closure does nothing after it and stays
    registered if it was. *)
Theorem wrapper_unregisters_itself_on_return (call : fn -> args -> M unit)
    (eventName : string) (callback : fn) (serial : nat) (a : args)
    (w : World) :
  let me := OnceWrapper eventName callback serial in
  let inner := callFn call callback (Events.firstArg a) in
  let w' := exec (Events.wrapper call eventName callback serial a) w in
  match fst (inner w) with
  | Ok _ =>
      fst (Events.wrapper call eventName callback serial a w) = Ok tt /\
      forall cbs, listeners w' !! eventName = Some cbs -> me ∉ cbs
  | Thrown error =>
      Events.wrapper call eventName callback serial a w
      = (Thrown error, exec inner w)
  end.
Proof.
  intros me inner w'. subst w'. unfold Events.wrapper. fold inner. fold me.
  unfold exec, bind.
  destruct (inner w) as [[[]|e] w1] eqn:Hin; simpl; [|reflexivity].
  split.
  - unfold Events.off, bind, gets, modify, when, ret.
    destruct (listeners w1 !! eventName); [|reflexivity]. simpl.
    destruct (debugMode w1); reflexivity.
  - intros cbs H.
    apply (off_forgets eventName me w1 cbs). exact H.
Qed.

(** ** What a command does to the state *)

Section Observers.
Variable call : fn -> args -> M unit.
Hypothesis call_observes : observers call.

Lemma forEach_keeps_state (a : args) (text : string) (cbs : list fn)
    (w : World) :
  state (exec (forEach cbs (fun callback =>
           tryCatch (callFn call callback a) (consoleError text))) w)
  = state w.
Proof.
  revert w. induction cbs as [|cb rest IH]; intros w; [reflexivity|].
  simpl. unfold exec, bind at 1.
  destruct (tryCatch _ _ w) as [[[]|e] w1] eqn:Hb.
  - fold (exec (forEach rest (fun callback =>
            tryCatch (callFn call callback a) (consoleError text))) w1).
    rewrite IH.
    unfold tryCatch, callFn, bind, gets, record, modify in Hb. simpl in Hb.
    match type of Hb with
    | context [call cb a ?w0] =>
        pose proof (call_observes cb a w0) as Hc; unfold exec in Hc;
        destruct (call cb a w0) as [[[]|e] w2]
    end; simpl in *; inversion Hb; subst; simpl; exact Hc.
  - exfalso. unfold tryCatch in Hb.
    destruct (callFn call cb a w) as [[[]|e'] w2]; simpl in Hb; discriminate.
Qed.

Lemma notify_keeps_state (key : string) (n o : fieldValue) (w : World) :
  state (exec (Store.notify call key n o) w) = state w.
Proof.
  unfold Store.notify. rewrite exec_bind_gets.
  destruct (subscribers w !! key); [apply forEach_keeps_state|reflexivity].
Qed.

Lemma announce_keeps_state (key : string) (prev : State) (w : World) :
  state (exec (Store.announce call key prev) w) = state w.
Proof.
  unfold Store.announce. rewrite exec_bind_gets. apply notify_keeps_state.
Qed.

Lemma announce_then (key : string) (prev : State) (k : M unit) (w : World) :
  exec (Store.announce call key prev ;; k) w
  = exec k (exec (Store.announce call key prev) w).
Proof.
  exact (exec_bind_ok (Store.announce call key prev) (fun _ => k) tt w
           (announce_returns call key prev w)).
Qed.

Lemma dispatch_state (a : action) (w : World) :
  state (exec (Store.dispatch call a) w) = effect a (state w).
Proof.
  unfold Store.dispatch. rewrite exec_bind_gets.
  match goal with
  | |- state (exec (bind ?m ?k) w) = _ =>
      assert (Hm : fst (m w) = Ok tt /\ state (exec m w) = effect a (state w))
  end.
  { split.
    - destruct a; repeat
        match goal with
        | |- fst (Store.announce _ _ _ _) = _ => apply announce_returns
        | |- fst (Store.notify _ _ _ _ _) = _ => apply notify_returns
        | |- fst (modifyState _ _) = _ => reflexivity
        | |- fst (consoleWarn _ _) = _ => reflexivity
        | |- fst (ret _ _) = _ => reflexivity
        | |- fst ((if ?b then _ else _) _) = _ => destruct b
        | |- fst ((match ?o with Some _ => _ | None => _ end) _) = _ =>
            destruct o
        | |- fst (when ?b _ _) = _ => destruct b; simpl
        | |- fst (bind (gets _) _ _) = _ =>
            apply bind_returns; [eexists; reflexivity|]; intros ? ?
        | |- fst (bind _ (fun _ => _) _) = _ => apply seq_returns; intros ?
        | |- Ok _ = Ok _ => reflexivity
        end.
    - destruct a; simpl;
        repeat match goal with
        | |- context [if ?c then _ else _] => destruct c eqn:?
        | |- context [match Store.ownedKey ?s with _ => _ end] =>
            destruct s; simpl
        | |- state (exec (bind (gets _) _) _) = _ => rewrite exec_bind_gets
        | |- state (exec (bind (modifyState _) _) _) = _ =>
            rewrite exec_bind_modifyState
        | |- state (exec (bind (Store.announce _ _ _) _) _) = _ =>
            rewrite announce_then
        | |- state (exec (bind (when _ _) _) _) = _ => unfold when
        | |- state (exec (bind (bind _ _) _) _) = _ => rewrite exec_bind_assoc
        | |- state (exec (bind (ret _) _) _) = _ => rewrite exec_bind_ret
        | |- state (exec (Store.announce _ _ _) _) = _ =>
            rewrite announce_keeps_state
        | |- state (exec (Store.notify _ _ _ _) _) = _ =>
            rewrite notify_keeps_state
        end; try reflexivity; simpl in *; try congruence. }
  destruct Hm as [Hok Hst].
  rewrite (exec_bind_ok _ _ tt) by exact Hok.
  rewrite exec_bind_gets, exec_bind_gets, exec_bind_record.
  rewrite notify_keeps_state. simpl. exact Hst.
Qed.

End Observers.

Lemma bystander_observes : observers bystander.
Proof. intros f a w. reflexivity. Qed.

(** X4: [RESET_GAME] puts both times at the default time, zeroes the move
    counters, clears the active player, pauses, empties the match
    statistics, and keeps the default time, the selected profiles, the
    settings, the achievements, the experience and the level. *)
Theorem reset_restores_the_game (call : fn -> args -> M unit) (w : World) :
  observers call ->
  let s := state w in
  let s' := state (exec (Store.dispatch call RESET_GAME) w) in
  (player1Time s' = defaultTime s /\ player2Time s' = defaultTime s /\
   player1Moves s' = 0 /\ player2Moves s' = 0 /\
   activePlayer s' = 0 /\ isPaused s' = true /\
   currentMatchStats s' = emptyMatchStats) /\
  (defaultTime s' = defaultTime s /\
   selectedPlayer1 s' = selectedPlayer1 s /\
   selectedPlayer2 s' = selectedPlayer2 s /\
   ambientMode s' = ambientMode s /\ audioEnabled s' = audioEnabled s /\
   particlesEnabled s' = particlesEnabled s /\
   endgameBoostEnabled s' = endgameBoostEnabled s /\
   player1Palette s' = player1Palette s /\
   player2Palette s' = player2Palette s /\
   unlockedAchievements s' = unlockedAchievements s /\
   totalXP s' = totalXP s /\ level s' = level s).
Proof.
  intros Hobs s s'. subst s s'. rewrite (dispatch_state call Hobs).
  simpl. repeat split; reflexivity.
Qed.

Lemma reset_restores_the_game_witness :
  let s := state midgame in
  let s' := state (exec (Store.dispatch bystander RESET_GAME) midgame) in
  (player1Time s' = defaultTime s /\ player2Time s' = defaultTime s /\
   player1Moves s' = 0 /\ player2Moves s' = 0 /\
   activePlayer s' = 0 /\ isPaused s' = true /\
   currentMatchStats s' = emptyMatchStats) /\
  (defaultTime s' = defaultTime s /\
   selectedPlayer1 s' = selectedPlayer1 s /\
   selectedPlayer2 s' = selectedPlayer2 s /\
   ambientMode s' = ambientMode s /\ audioEnabled s' = audioEnabled s /\
   particlesEnabled s' = particlesEnabled s /\
   endgameBoostEnabled s' = endgameBoostEnabled s /\
   player1Palette s' = player1Palette s /\
   player2Palette s' = player2Palette s /\
   unlockedAchievements s' = unlockedAchievements s /\
   totalXP s' = totalXP s /\ level s' = level s).
Proof.
  exact (reset_restores_the_game bystander midgame bystander_observes).
Defined.

(** X5: [ADD_XP] adds the amount to the experience and raises the level to
    one more than the hundreds of the experience when that is higher; the
    level never goes down, whatever the amount. *)
Theorem add_xp_never_lowers_level (call : fn -> args -> M unit) (w : World)
    (amount : Z) :
  observers call ->
  let s := state w in
  let s' := state (exec (Store.dispatch call (ADD_XP amount)) w) in
  totalXP s' = totalXP s + amount /\
  level s' = Z.max (level s) (totalXP s' / 100 + 1) /\
  level s <= level s'.
Proof.
  intros Hobs s s'. subst s s'. rewrite (dispatch_state call Hobs).
  cbn [effect]. cbv zeta. cbn [totalXP level set_totalXP].
  destruct (Z.ltb_spec (level (state w)) ((totalXP (state w) + amount) / 100 + 1));
    cbn [totalXP level set_totalXP set_level]; lia.
Qed.

Lemma add_xp_never_lowers_level_witness :
  let s := state midgame in
  let s' := state (exec (Store.dispatch bystander (ADD_XP 250)) midgame) in
  totalXP s' = totalXP s + 250 /\
  level s' = Z.max (level s) (totalXP s' / 100 + 1) /\
  level s <= level s'.
Proof.
  exact (add_xp_never_lowers_level bystander midgame 250 bystander_observes).
Defined.

(** X6: [ADD_ACHIEVEMENT] keeps the achievements unlocked so far in their
    order, unlocks the new one, never lists an achievement twice, and
    dispatched a second time changes nothing. *)
Theorem add_achievement_is_idempotent (call : fn -> args -> M unit)
    (w : World) (achievementId : string) :
  observers call ->
  NoDup (unlockedAchievements (state w)) ->
  let s' := state (exec (Store.dispatch call (ADD_ACHIEVEMENT achievementId)) w) in
  let s'' :=
    state (dispatchAll call
             [ADD_ACHIEVEMENT achievementId; ADD_ACHIEVEMENT achievementId] w) in
  unlockedAchievements (state w) `prefix_of` unlockedAchievements s' /\
  achievementId ∈ unlockedAchievements s' /\
  NoDup (unlockedAchievements s') /\
  s'' = s'.
Proof.
  intros Hobs Hnd s' s''. subst s' s''. simpl.
  rewrite !(dispatch_state call Hobs). cbn [effect].
  destruct (bool_decide (achievementId ∈ unlockedAchievements (state w)))
    eqn:Hin.
  - rewrite Hin. apply bool_decide_eq_true in Hin. repeat split; auto.
  - apply bool_decide_eq_false in Hin.
    cbn [unlockedAchievements set_unlockedAchievements].
    rewrite bool_decide_eq_true_2 by (apply elem_of_app; right; constructor).
    repeat split.
    + apply prefix_app_r. reflexivity.
    + apply elem_of_app. right. constructor.
    + apply NoDup_app. repeat split; auto.
      * intros x Hx Hx'. apply list_elem_of_singleton in Hx'. congruence.
      * apply NoDup_singleton.
Qed.

Lemma add_achievement_is_idempotent_witness :
  let s' :=
    state (exec (Store.dispatch bystander (ADD_ACHIEVEMENT "century")) midgame) in
  let s'' :=
    state (dispatchAll bystander
             [ADD_ACHIEVEMENT "century"; ADD_ACHIEVEMENT "century"] midgame) in
  unlockedAchievements (state midgame) `prefix_of` unlockedAchievements s' /\
  "century" ∈ unlockedAchievements s' /\
  NoDup (unlockedAchievements s') /\
  s'' = s'.
Proof.
  apply (add_achievement_is_idempotent bystander midgame "century"
           bystander_observes).
  vm_compute. constructor.
Defined.

(** X7: a command that names no player of the game or no key of the state,
    an unknown action, a decrement of a clock that has run out and an
    achievement that is unlocked already leave the state as it is. *)
Theorem stray_commands_change_nothing (call : fn -> args -> M unit)
    (w : World) (a : action) :
  observers call -> changesNothing a (state w) ->
  state (exec (Store.dispatch call a) w) = state w.
Proof.
  intros Hobs Ha. rewrite (dispatch_state call Hobs).
  destruct a; simpl in Ha; try contradiction; cbn [effect].
  - destruct Ha as [H1 H2].
    apply Z.eqb_neq in H1, H2. rewrite H1, H2. reflexivity.
  - destruct (Z.eqb_spec player 1), (Z.eqb_spec player 2),
      (Qle_bool (player1Time (state w)) 0) eqn:E1,
      (Qle_bool (player2Time (state w)) 0) eqn:E2;
      simpl; try reflexivity; exfalso;
      destruct Ha as [[? ?]|[[? Hle]|[? Hle]]]; try lia;
      apply Qle_bool_iff in Hle; congruence.
  - destruct Ha as [H1 H2].
    apply Z.eqb_neq in H1, H2. rewrite H1, H2. reflexivity.
  - destruct Ha as [H1 H2].
    apply Z.eqb_neq in H1, H2. rewrite H1, H2. reflexivity.
  - destruct s; try contradiction. reflexivity.
  - rewrite bool_decide_eq_true_2 by exact Ha. reflexivity.
  - reflexivity.
Qed.

Lemma stray_commands_change_nothing_witness :
  state (exec (Store.dispatch bystander (DECREMENT_TIME 3)) midgame)
  = state midgame.
Proof.
  apply (stray_commands_change_nothing bystander midgame (DECREMENT_TIME 3)
           bystander_observes).
  left. split; discriminate.
Defined.

(** ** The scheduler and the pause flag *)

Lemma poised_step (slack : nat) (o : op) (w : World) :
  Poised w -> Poised (exec (perform (core slack) o) w).
Proof.
  intros Hw. pose proof Hw as [[Hl Hs Hd] Ha].
  apply (wp_exec _ Poised).
  destruct o; unfold perform, core.
  all: wp_run.
  all: try exact Hw.
  all: split; [split; norm; assumption|norm; settle].
  all: try (split; intros; congruence).
  all: try (destruct Ha; split; intros; try congruence; intuition congruence).
Qed.

Lemma booted_poised (slack : nat) (t0 : Z) : Poised (booted slack t0).
Proof. split; [apply booted_wired|]. split; reflexivity. Qed.

(** X8: whatever requests the engine serves from the initial state, with
    whatever player numbers and times, the scheduler is armed exactly
    while the clock is not paused: [running] of [getStatus] is the
    negation of [isPaused]. *)
Theorem clock_armed_iff_not_paused (slack : nat) (t0 : Z) (ops : list op) :
  let w := performAll (core slack) ops (booted slack t0) in
  timerInterval w = None <-> isPaused (state w) = true.
Proof.
  intros w. subst w.
  assert (H : Poised (performAll (core slack) ops (booted slack t0))).
  { generalize (booted_poised slack t0). generalize (booted slack t0).
    induction ops as [|o rest IH]; intros w Hw; [exact Hw|].
    simpl. apply IH, poised_step, Hw. }
  apply H.
Qed.

(** ** One tick *)

Lemma published_app (eventName : string) (l1 l2 : list traceEntry) :
  published eventName (l1 ++ l2) =
  published eventName l1 ++ published eventName l2.
Proof. apply omap_app. Qed.

Ltac read_trace :=
  norm; rewrite <- ?app_assoc; rewrite ?published_app;
  cbn [published omap app]; simpl; rewrite ?app_nil_r.

(** X9: while a game runs, a tick takes exactly one second from the time
    of the player to move, if that time is above 0, and publishes it; the
    other player's time, the move counters and the default time stay. *)
Theorem tick_takes_one_second_from_the_mover (slack : nat) (w : World)
    (t : Q) :
  wired w -> timerInterval w <> None -> isPaused (state w) = false ->
  activePlayer (state w) = 1 \/ activePlayer (state w) = 2 ->
  Engine.playerTime (activePlayer (state w)) (state w) = Some t ->
  (0 < t)%Q ->
  let p := activePlayer (state w) in
  let w' := exec (perform (core slack) SchedulerFires) w in
  Engine.playerTime p (state w') = Some (t - 1)%Q /\
  Engine.playerTime (3 - p) (state w') = Engine.playerTime (3 - p) (state w) /\
  player1Moves (state w') = player1Moves (state w) /\
  player2Moves (state w') = player2Moves (state w) /\
  defaultTime (state w') = defaultTime (state w) /\
  now w' = now w + 1000 /\
  published "game:tick" (trace w') =
  published "game:tick" (trace w) ++ [PTime p (t - 1)%Q].
Proof.
  intros [Hl Hs Hd] Harmed Hpaused Hp Ht Hpos p w'. subst p w'.
  apply (wp_exec _ (fun w' =>
    Engine.playerTime (activePlayer (state w)) (state w') = Some (t - 1)%Q /\
    Engine.playerTime (3 - activePlayer (state w)) (state w') =
      Engine.playerTime (3 - activePlayer (state w)) (state w) /\
    player1Moves (state w') = player1Moves (state w) /\
    player2Moves (state w') = player2Moves (state w) /\
    defaultTime (state w') = defaultTime (state w) /\
    now w' = now w + 1000 /\
    published "game:tick" (trace w') =
    published "game:tick" (trace w) ++
      [PTime (activePlayer (state w)) (t - 1)%Q])).
  destruct Hp as [Hp|Hp]; rewrite Hp in *;
    unfold Engine.playerTime in Ht; simpl in Ht; injection Ht as <-;
    unfold perform.
  all: unfold core; wp_run.
  all: try congruence.
  all: rewrite ?Hp; read_trace; repeat split; reflexivity.
Qed.

Lemma tick_takes_one_second_from_the_mover_witness :
  let p := activePlayer (state midgame) in
  let w' := exec (perform (core 0) SchedulerFires) midgame in
  Engine.playerTime p (state w') = Some (300 - 1)%Q /\
  Engine.playerTime (3 - p) (state w') =
    Engine.playerTime (3 - p) (state midgame) /\
  player1Moves (state w') = player1Moves (state midgame) /\
  player2Moves (state w') = player2Moves (state midgame) /\
  defaultTime (state w') = defaultTime (state midgame) /\
  now w' = now midgame + 1000 /\
  published "game:tick" (trace w') =
  published "game:tick" (trace midgame) ++ [PTime p (300 - 1)%Q].
Proof.
  apply (tick_takes_one_second_from_the_mover 0 midgame 300).
  - apply performAll_steady; [apply booted_steady|].
    repeat constructor.
  - vm_compute. discriminate.
  - vm_compute. reflexivity.
  - left. vm_compute. reflexivity.
  - vm_compute. reflexivity.
  - reflexivity.
Defined.

(** X10: while a game runs, the tick after which the player to move has
    no time left ends the game: it disarms the scheduler, pauses, clears
    the active player and publishes the victory of the other player with
    the time that player has left.  The tick that leaves time keeps the
    game running and publishes no victory. *)
Theorem flag_falls_when_the_time_runs_out (slack : nat) (w : World) (t : Q) :
  wired w -> timerInterval w <> None -> isPaused (state w) = false ->
  activePlayer (state w) = 1 \/ activePlayer (state w) = 2 ->
  Engine.playerTime (activePlayer (state w)) (state w) = Some t ->
  let p := activePlayer (state w) in
  let w' := exec (perform (core slack) SchedulerFires) w in
  ((t <= 1)%Q ->
   activePlayer (state w') = 0 /\ isPaused (state w') = true /\
   timerInterval w' = None /\
   published "game:victory" (trace w') =
   published "game:victory" (trace w) ++
     [PVictory (3 - p) p (Engine.playerTime (3 - p) (state w))]) /\
  ((1 < t)%Q ->
   activePlayer (state w') = p /\ isPaused (state w') = false /\
   timerInterval w' = timerInterval w /\
   published "game:victory" (trace w') = published "game:victory" (trace w)).
Proof.
  intros [Hl Hs Hd] Harmed Hpaused Hp Ht p w'. subst p w'.
  apply (wp_exec _ (fun w' =>
  ((t <= 1)%Q ->
   activePlayer (state w') = 0 /\ isPaused (state w') = true /\
   timerInterval w' = None /\
   published "game:victory" (trace w') =
   published "game:victory" (trace w) ++
     [PVictory (3 - activePlayer (state w)) (activePlayer (state w))
        (Engine.playerTime (3 - activePlayer (state w)) (state w))]) /\
  ((1 < t)%Q ->
   activePlayer (state w') = activePlayer (state w) /\
   isPaused (state w') = false /\
   timerInterval w' = timerInterval w /\
   published "game:victory" (trace w') = published "game:victory" (trace w)))).
  destruct (Qlt_le_dec 1 t) as [Hcase|Hcase];
    destruct Hp as [Hp|Hp]; rewrite Hp in *;
    unfold Engine.playerTime in Ht; simpl in Ht; injection Ht as <-;
    unfold perform.
  all: unfold core; wp_run.
  all: try congruence.
  all: rewrite ?Hp; split; intros Hcase';
    try (exfalso; time_facts; lra).
  all: read_trace; repeat split; try reflexivity; try assumption.
Qed.

Lemma flag_falls_when_the_time_runs_out_witness :
  let w := performAll (core 0) [TimeSelected 1; PlayerClicked 2] (booted 0 0) in
  let p := activePlayer (state w) in
  let w' := exec (perform (core 0) SchedulerFires) w in
  ((1 <= 1)%Q ->
   activePlayer (state w') = 0 /\ isPaused (state w') = true /\
   timerInterval w' = None /\
   published "game:victory" (trace w') =
   published "game:victory" (trace w) ++
     [PVictory (3 - p) p (Engine.playerTime (3 - p) (state w))]) /\
  ((1 < 1)%Q ->
   activePlayer (state w') = p /\ isPaused (state w') = false /\
   timerInterval w' = timerInterval w /\
   published "game:victory" (trace w') = published "game:victory" (trace w)).
Proof.
  apply (flag_falls_when_the_time_runs_out 0
           (performAll (core 0) [TimeSelected 1; PlayerClicked 2] (booted 0 0))
           1).
  - apply performAll_steady; [apply booted_steady|].
    repeat (constructor; [simpl; auto|]). constructor.
  - vm_compute. discriminate.
  - vm_compute. reflexivity.
  - right. vm_compute. reflexivity.
  - vm_compute. reflexivity.
Defined.

(** X11: when the scheduler is not armed, the clock is paused or no
    player is active, a second that passes changes the wall clock and
    nothing else: no time, no flag, no event, no log line. *)
Theorem scheduler_idles_without_a_running_game (slack : nat) (w : World) :
  wired w ->
  timerInterval w = None \/ isPaused (state w) = true \/
  activePlayer (state w) = 0 ->
  let w' := exec (perform (core slack) SchedulerFires) w in
  state w' = state w /\ timerInterval w' = timerInterval w /\
  thresholdFlags w' = thresholdFlags w /\ console w' = console w /\
  now w' = now w + 1000 /\
  (forall eventName,
      published eventName (trace w') = published eventName (trace w)).
Proof.
  intros [Hl Hs Hd] Hidle w'. subst w'.
  apply (wp_exec _ (fun w' =>
    state w' = state w /\ timerInterval w' = timerInterval w /\
    thresholdFlags w' = thresholdFlags w /\ console w' = console w /\
    now w' = now w + 1000 /\
    (forall eventName,
        published eventName (trace w') = published eventName (trace w)))).
  unfold perform, core; wp_run.
  all: try (exfalso; destruct Hidle as [H|[H|H]]; congruence).
  all: repeat split; try reflexivity; try assumption.
  all: try (intros eventName; read_trace; reflexivity).
Qed.

Lemma scheduler_idles_without_a_running_game_witness :
  let w' := exec (perform (core 0) SchedulerFires) pausedGame in
  state w' = state pausedGame /\
  timerInterval w' = timerInterval pausedGame /\
  thresholdFlags w' = thresholdFlags pausedGame /\
  console w' = console pausedGame /\
  now w' = now pausedGame + 1000 /\
  (forall eventName,
      published eventName (trace w') =
      published eventName (trace pausedGame)).
Proof.
  apply (scheduler_idles_without_a_running_game 0 pausedGame).
  - apply performAll_steady; [apply booted_steady|].
    repeat constructor.
  - left. vm_compute. reflexivity.
Defined.
